(** * ANS reactivity during VR stimulation: the offline scoring pipeline

    A shallow embedding of [src/ANS_reactivity/offline_processing.py]
    (class [OfflineAnalysisANS]), of the replay data of
    [src/ANS_reactivity/online_simulation.py] and of the prototype
    [Indexing.py], with the properties of the windowing, heart-rate,
    normalisation, weighting and scoring code.

    Conventions of the embedding.
    - Python [float] and the float64 cells of numpy arrays and pandas
      Series are Rocq's primitive binary64 floats ([PrimFloat.float]), so
      [+ - * /] and the comparisons round and treat NaN and the infinities
      as the interpreter does.
    - Python [int] is [Z]; [bool] is a subclass of [int].
    - A call that may raise returns a [result]; a method that mutates
      [self] maps the object to an outcome and the object it leaves
      behind, also when it raises.
    - The external estimators (heartpy, neurokit2) and the file system
      are parameters.
    - [int / int] is the float nearest to the exact quotient, so a count
      [math.ceil(len / n_samples)] is exact for fewer than 2^53 samples
      and a window below 2^1075.
    - pandas behaves as its versions 1.0 and later do: indexing a Series
      with a label it does not have raises [KeyError]. *)

From Stdlib Require Import ZArith List String Bool Lia Floats.
Import ListNotations.
Set Warnings "-inexact-float,-register-all".
Local Open Scope Z_scope.

(** ** Exceptions and outcomes *)

Inductive exn : Type :=
| TypeError
| ValueError
| KeyError
| AttributeError
| ZeroDivisionError
| OverflowError
| OSError
| PlainException.

Inductive result (A : Type) : Type :=
| Return (a : A)
| Raise (e : exn).

Arguments Return {A} a.
Arguments Raise {A} e.

Definition bind {A B : Type} (r : result A) (k : A -> result B) : result B :=
  match r with
  | Return a => k a
  | Raise e => Raise e
  end.

Notation "x <- c ;; k" := (bind c (fun x => k))
  (at level 61, c at next level, right associativity).

Definition raises {A : Type} (r : result A) : Prop := exists e, r = Raise e.

(** ** Python values *)

(** The values a caller can pass where the code expects a path, an int or
    the weights dict.  A dict is its items in insertion order (the order
    [keys()] and [values()] iterate in); the keys of a dict are pairwise
    different, which nothing below relies on. *)
Inductive pyval : Type :=
| PyNone
| PyBool (b : bool)
| PyInt (z : Z)
| PyFloat (f : float)
| PyStr (s : string)
| PyPath (p : string)
| PyDict (items : list (pyval * pyval)).

(** [isinstance(v, int)]: [bool] is a subclass of [int]. *)
Definition isinstance_int (v : pyval) : bool :=
  match v with
  | PyBool _ | PyInt _ => true
  | _ => false
  end.

(** [isinstance(v, Path) or isinstance(v, str)]. *)
Definition isinstance_path_or_str (v : pyval) : bool :=
  match v with
  | PyPath _ | PyStr _ => true
  | _ => false
  end.

(** [k == s] for a string literal [s]. *)
Definition eq_str (k : pyval) (s : string) : bool :=
  match k with
  | PyStr s' => String.eqb s' s
  | _ => false
  end.

(** [list(d.keys()) == names]. *)
Fixpoint keys_equal (items : list (pyval * pyval)) (names : list string) : bool :=
  match items, names with
  | [], [] => true
  | (k, _) :: items', s :: names' => eq_str k s && keys_equal items' names'
  | _, _ => false
  end.

(** [d[s]] for a string literal [s]. *)
Fixpoint getitem (items : list (pyval * pyval)) (s : string) : result pyval :=
  match items with
  | [] => Raise KeyError
  | (k, v) :: items' => if eq_str k s then Return v else getitem items' s
  end.

(** ** Python numbers *)

Inductive pynum : Type :=
| NInt (z : Z)
| NFloat (f : float).

(** The number a value is when [isinstance(v, (int, float))], else [None]. *)
Definition as_num (v : pyval) : option pynum :=
  match v with
  | PyBool b => Some (NInt (Z.b2z b))
  | PyInt z => Some (NInt z)
  | PyFloat f => Some (NFloat f)
  | _ => None
  end.

(** [float(z)]: the nearest binary64 value, ties to even; Python raises
    [OverflowError] where that would be an infinity. *)
Definition int_to_float (z : Z) : result float :=
  let f := SF2Prim (binary_normalize prec emax z 0 false) in
  if is_infinity f then Raise OverflowError else Return f.

(** [a + b] on numbers: exact on ints, binary64 once a float takes part. *)
Definition py_add (a b : pynum) : result pynum :=
  match a, b with
  | NInt x, NInt y => Return (NInt (x + y))
  | NInt x, NFloat g => f <- int_to_float x ;; Return (NFloat (f + g)%float)
  | NFloat f, NInt y => g <- int_to_float y ;; Return (NFloat (f + g)%float)
  | NFloat f, NFloat g => Return (NFloat (f + g)%float)
  end.

(** The builtin [sum(values)]: left to right from the int [0] (CPython
    before 3.12; later versions compensate the float additions). *)
Fixpoint sum_from (acc : pynum) (values : list pyval) : result pynum :=
  match values with
  | [] => Return acc
  | v :: values' =>
      match as_num v with
      | None => Raise TypeError
      | Some n => acc' <- py_add acc n ;; sum_from acc' values'
      end
  end.

Definition py_sum (values : list pyval) : result pynum := sum_from (NInt 0) values.

(** [n != 1]: an int and a float compare by value. *)
Definition ne_one (n : pynum) : bool :=
  match n with
  | NInt z => negb (z =? 1)
  | NFloat f => negb (f =? 1)%float
  end.

(** [n >= 0]. *)
Definition ge_zero (n : pynum) : bool :=
  match n with
  | NInt z => 0 <=? z
  | NFloat f => (0 <=? f)%float
  end.

(** ** Series and data frames *)

(** A float64 Series or numpy array over the default index [0 .. len-1]. *)
Definition series : Type := list float.

(** A DataFrame: its columns by name, in order, over one shared index (so
    the columns of one frame have one length). *)
Definition frame : Type := list (string * series).

(** [df[column]]. *)
Fixpoint frame_get (df : frame) (column : string) : result series :=
  match df with
  | [] => Raise KeyError
  | (c, s) :: df' => if String.eqb c column then Return s else frame_get df' column
  end.

(** [df[column] = s]: an existing column is replaced in place, a new one
    is appended. *)
Fixpoint frame_set (df : frame) (column : string) (s : series) : frame :=
  match df with
  | [] => [(column, s)]
  | (c, s') :: df' =>
      if String.eqb c column then (c, s) :: df'
      else (c, s') :: frame_set df' column s
  end.

(** ** The analysis object *)

(** What [print] wrote; the f-strings interpolate the weights. *)
Inductive message : Type :=
| WeightsAreValid (w : pyval)
| NewWeightsNotValid (w : pyval).

(** The attributes of the object and the standard output.  [__init__]
    sets the first five; the others exist once the method that assigns
    them has run. *)
Record OfflineAnalysisANS : Type := mkANS {
  data_path : pyval;
  sample_rate : pyval;
  time_window : pyval;
  weights : pyval;
  n_samples : Z;
  time : option series;
  ecg : option series;
  gsr : option series;
  processed_data : option frame;
  normal_data : option frame;
  scored_data : option frame;
  stdout : list message
}.

Definition set_weights (self : OfflineAnalysisANS) (w : pyval) : OfflineAnalysisANS :=
  mkANS (data_path self) (sample_rate self) (time_window self) w
        (n_samples self) (time self) (ecg self) (gsr self)
        (processed_data self) (normal_data self) (scored_data self) (stdout self).

Definition set_processed_data (self : OfflineAnalysisANS) (df : frame)
  : OfflineAnalysisANS :=
  mkANS (data_path self) (sample_rate self) (time_window self) (weights self)
        (n_samples self) (time self) (ecg self) (gsr self)
        (Some df) (normal_data self) (scored_data self) (stdout self).

Definition set_normal_data (self : OfflineAnalysisANS) (df : frame)
  : OfflineAnalysisANS :=
  mkANS (data_path self) (sample_rate self) (time_window self) (weights self)
        (n_samples self) (time self) (ecg self) (gsr self)
        (processed_data self) (Some df) (scored_data self) (stdout self).

Definition set_scored_data (self : OfflineAnalysisANS) (df : frame)
  : OfflineAnalysisANS :=
  mkANS (data_path self) (sample_rate self) (time_window self) (weights self)
        (n_samples self) (time self) (ecg self) (gsr self)
        (processed_data self) (normal_data self) (Some df) (stdout self).

Definition print (self : OfflineAnalysisANS) (m : message) : OfflineAnalysisANS :=
  mkANS (data_path self) (sample_rate self) (time_window self) (weights self)
        (n_samples self) (time self) (ecg self) (gsr self)
        (processed_data self) (normal_data self) (scored_data self)
        (stdout self ++ [m]).

(** Reading an attribute that no method has assigned yet. *)
Definition attribute {A : Type} (a : option A) : result A :=
  match a with
  | Some x => Return x
  | None => Raise AttributeError
  end.

(** ** Methods

    A method maps the object to its outcome and the object it leaves
    behind; what it assigned before raising stays assigned. *)

Definition method (A : Type) : Type :=
  OfflineAnalysisANS -> result A * OfflineAnalysisANS.

Definition mret {A : Type} (a : A) : method A := fun self => (Return a, self).

Definition mbind {A B : Type} (m : method A) (k : A -> method B) : method B :=
  fun self =>
    match m self with
    | (Return a, self') => k a self'
    | (Raise e, self') => (Raise e, self')
    end.

Definition lift {A : Type} (r : result A) : method A := fun self => (r, self).

Notation "x <~ c ;; k" := (mbind c (fun x => k))
  (at level 61, c at next level, right associativity).
Notation "c ;;; k" := (mbind c (fun _ => k))
  (at level 61, right associativity).

(** [for x in xs: body]. *)
Fixpoint for_each {A : Type} (xs : list A) (body : A -> method unit) : method unit :=
  match xs with
  | [] => mret tt
  | x :: xs' => body x ;;; for_each xs' body
  end.

(** [try: body / except E: handler / finally: final], where [catches]
    tells which exceptions the [except] clause names. *)
Definition try_except_finally {A : Type} (body : method A) (catches : exn -> bool)
    (handler : method A) (final : method unit) : method A :=
  fun self =>
    let '(r, self1) := body self in
    let '(r', self2) :=
      match r with
      | Raise e => if catches e then handler self1 else (r, self1)
      | Return _ => (r, self1)
      end in
    match final self2 with
    | (Return _, self3) => (r', self3)
    | (Raise e, self3) => (Raise e, self3)
    end.

Definition assign_weights (w : pyval) : method unit :=
  fun self => (Return tt, set_weights self w).

Definition say (m : OfflineAnalysisANS -> message) : method unit :=
  fun self => (Return tt, print self (m self)).

(** ** Weight validation: [check_weights_input] and [change_weights] *)

Definition WEIGHT_KEYS : list string := ["ECG"; "GSR"; "RESP"]%string.

(** The chain of [if]/[elif] of [check_weights_input] on [self.weights];
    only the last branch returns, and it returns [True]. *)
Definition validate_weights (w : pyval) : result bool :=
  match w with
  | PyDict items =>
      if negb (Nat.eqb (List.length items) 3) then Raise ValueError
      else if negb (keys_equal items WEIGHT_KEYS) then Raise ValueError
      else
        e <- getitem items "ECG" ;;
        g <- getitem items "GSR" ;;
        r <- getitem items "RESP" ;;
        match as_num e, as_num g, as_num r with
        | Some ne, Some ng, Some nr =>
            s <- py_sum (map snd items) ;;
            if ne_one s then Raise ValueError
            else if negb (ge_zero ne && ge_zero ng && ge_zero nr)
                 then Raise ValueError
                 else Return true
        | _, _, _ => Raise TypeError
        end
  | _ => Raise TypeError
  end.

(** [self.check_weights_input()]; the valid branch prints before it
    returns. *)
Definition check_weights_input : method bool :=
  ok <~ (fun self => (validate_weights (weights self), self)) ;;
  say (fun self => WeightsAreValid (weights self)) ;;;
  mret ok.

(** [self.change_weights(new_weights)].  The new weights are stored before
    they are checked, and nothing here catches what the check raises. *)
Definition change_weights (new_weights : pyval) : method unit :=
  fun self =>
    let old_weights := weights self in
    (assign_weights new_weights ;;;
     ok <~ check_weights_input ;;
     if negb ok then
       assign_weights old_weights ;;;
       say (fun self' => NewWeightsNotValid (weights self'))
     else assign_weights new_weights) self.

(** ** Construction: [__init__] *)

(** The value of an [int] operand of [*]. *)
Definition int_value (v : pyval) : result Z :=
  match v with
  | PyBool b => Return (Z.b2z b)
  | PyInt z => Return z
  | _ => Raise TypeError
  end.

Definition path_string (v : pyval) : string :=
  match v with
  | PyPath p | PyStr p => p
  | _ => EmptyString
  end.

Definition DEFAULT_WEIGHTS : pyval :=
  PyDict [(PyStr "ECG", PyFloat (1 / 3)); (PyStr "GSR", PyFloat (1 / 3));
          (PyStr "RESP", PyFloat (1 / 3))].

Section Construction.

(** [Path(p).exists()] on the file system the constructor runs against:
    whether the path exists, or the exception the lookup leaves with (an
    [OSError] for a name that is too long or a directory that may not be
    searched). *)
Variable path_exists : string -> result bool.

(** [OfflineAnalysisANS(data_path, sample_rate, time_window, weights)]:
    the object when no check raises.  [n_samples] is assigned last. *)
Definition __init__ (data_path sample_rate time_window weights : pyval)
  : result OfflineAnalysisANS :=
  if negb (isinstance_path_or_str data_path) then Raise TypeError
  else
    found <- path_exists (path_string data_path) ;;
    if negb found then Raise ValueError
    else if negb (isinstance_int sample_rate) then Raise TypeError
    else if negb (isinstance_int time_window) then Raise TypeError
    else
      let self := mkANS data_path sample_rate time_window weights 0
                        None None None None None None [] in
      match check_weights_input self with
      | (Raise e, _) => Raise e
      | (Return _, self1) =>
          tw <- int_value time_window ;;
          sr <- int_value sample_rate ;;
          Return (mkANS data_path sample_rate time_window weights (tw * sr)
                        None None None None None None (stdout self1))
      end.

End Construction.

(** ** Windows and indices *)

Definition len {A : Type} (s : list A) : Z := Z.of_nat (List.length s).

(** [range(n)]. *)
Definition py_range (n : Z) : list Z := map Z.of_nat (seq 0 (Z.to_nat n)).

(** [np.arange(start, stop)]. *)
Definition arange (start stop : Z) : list Z :=
  map (fun i => start + Z.of_nat i) (seq 0 (Z.to_nat (stop - start))).

(** *** [math.ceil(a / b)] on ints

    [a / b] on two ints is a float: the binary64 value nearest to the
    exact quotient, ties to even (CPython rounds the quotient once; it
    does not convert [a] and [b] first).  A quotient too small for the
    format becomes a subnormal or zero, one too large is an
    [OverflowError].  [math.ceil] then takes the least int not below that
    float, so for a divisor such as [10 ** 400] the ceiling is 0. *)

(** [num / den] rounded to the nearest integer, ties to even, for a
    positive [den]. *)
Definition round_half_even (num den : Z) : Z :=
  let q := num / den in
  let r := num mod den in
  if 2 * r <? den then q
  else if den <? 2 * r then q + 1
  else if Z.even q then q else q + 1.

(** The exponent binary64 gives the last bit of the quotient of two
    positive ints: 52 below the exponent of its leading bit, and not below
    -1074 (the subnormals). *)
Definition quotient_exponent (a b : Z) : Z :=
  let k := Z.log2 b + 1 in
  Z.max (Z.log2 (a * 2 ^ k / b) - k - 52) (-1074).

(** The binary64 value nearest to [a / b], for positive ints, as
    [(m, e)]: the value [m * 2 ^ e]. *)
Definition nearest_binary64 (a b : Z) : Z * Z :=
  let e := quotient_exponent a b in
  (round_half_even (a * 2 ^ Z.max 0 (- e)) (b * 2 ^ Z.max 0 e), e).

(** [a / b] on ints, the float as [(m, e)] with a signed [m]. *)
Definition int_true_divide (a b : Z) : result (Z * Z) :=
  if b =? 0 then Raise ZeroDivisionError
  else if a =? 0 then Return (0, 0)
  else
    let '(m, e) := nearest_binary64 (Z.abs a) (Z.abs b) in
    if (0 <=? e) && (2 ^ 1024 <=? m * 2 ^ e) then Raise OverflowError
    else Return (Z.sgn a * Z.sgn b * m, e).

(** [math.ceil(x)] for the float [m * 2 ^ e]. *)
Definition math_ceil (x : Z * Z) : Z :=
  let '(m, e) := x in
  if 0 <=? e then m * 2 ^ e else - ((- m) / 2 ^ (- e)).

(** [math.ceil(a / b)]. *)
Definition ceil_div (a b : Z) : result Z :=
  x <- int_true_divide a b ;; Return (math_ceil x).

(** [np.zeros(n)]. *)
Definition np_zeros (n : Z) : result (list float) :=
  if n <? 0 then Raise ValueError else Return (repeat 0%float (Z.to_nat n)).

(** [a[k] = v] on an array, for [k] within it. *)
Fixpoint list_set {A : Type} (a : list A) (k : nat) (v : A) : list A :=
  match a, k with
  | [], _ => []
  | _ :: a', O => v :: a'
  | x :: a', S k' => x :: list_set a' k' v
  end.

Definition array_set (a : list float) (k : Z) (v : float) : list float :=
  list_set a (Z.to_nat k) v.

Definition array_get (a : list float) (k : Z) : float := nth (Z.to_nat k) a nan.

(** [s[label]] on the default index: a label outside it is a [KeyError]. *)
Definition getitem_label (s : series) (label : Z) : result float :=
  if (0 <=? label) && (label <? len s)
  then Return (nth (Z.to_nat label) s nan)
  else Raise KeyError.

(** [s[labels]] for an integer array of labels (pandas 1.0 and later:
    any missing label raises). *)
Fixpoint getitem_labels (s : series) (labels : list Z) : result series :=
  match labels with
  | [] => Return []
  | label :: labels' =>
      x <- getitem_label s label ;;
      rest <- getitem_labels s labels' ;;
      Return (x :: rest)
  end.

(** ** Heart rate: [heart_rate] *)

Section HeartRate.

(** [hp.process(relevant_data, sample_rate)] followed by
    [measures['bpm']]: the bpm of a chunk, or what heartpy raised. *)
Variable hp_process : series -> pyval -> result float.

(** The labels of chunk [data_chunks]:
    [np.arange(start_of_chunk, end_of_chunk)]. *)
Definition data_chunk (ecg : series) (n_samples number_of_chunks data_chunks : Z)
  : list Z :=
  let start_of_chunk := data_chunks * n_samples in
  let end_of_chunk :=
    if negb (data_chunks =? number_of_chunks)
    then (data_chunks + 1) * n_samples
    else len ecg in
  arange start_of_chunk end_of_chunk.

(** The body of the [try] for chunk [data_chunks]: the bpm it would
    store, or the exception it leaves with.  ([reset_index(drop=True)]
    renumbers the chunk from 0, which a list does by itself.  A chunk too
    long for an array makes [np.arange] itself raise; such a chunk is
    longer than the data, so here it fails at its first label past the
    data, and the bare [except] treats both alike.) *)
Definition heart_rate_try (ecg : series) (n_samples : Z) (sample_rate : pyval)
    (number_of_chunks data_chunks : Z) : result float :=
  relevant_data <-
    getitem_labels ecg (data_chunk ecg n_samples number_of_chunks data_chunks) ;;
  bpm_measured <- hp_process relevant_data sample_rate ;;
  if (bpm_measured <? 220)%float then Return bpm_measured
  else Raise PlainException.

(** One iteration of the [for]: the [try] and its bare [except]. *)
Definition heart_rate_iteration (ecg : series) (n_samples : Z)
    (sample_rate : pyval) (number_of_chunks : Z)
    (heart_rate_for_every_chunk : list float) (data_chunks : Z) : list float :=
  match heart_rate_try ecg n_samples sample_rate number_of_chunks data_chunks with
  | Return bpm_measured =>
      array_set heart_rate_for_every_chunk data_chunks bpm_measured
  | Raise _ =>
      if data_chunks =? 0
      then array_set heart_rate_for_every_chunk data_chunks nan
      else array_set heart_rate_for_every_chunk data_chunks
             (array_get heart_rate_for_every_chunk (data_chunks - 1))
  end.

Definition heart_rate (self : OfflineAnalysisANS) : result (list float) :=
  ecg <- attribute (ecg self) ;;
  number_of_chunks <- ceil_div (len ecg) (n_samples self) ;;
  zeros <- np_zeros number_of_chunks ;;
  Return (fold_left
            (heart_rate_iteration ecg (n_samples self) (sample_rate self)
               number_of_chunks)
            (py_range number_of_chunks) zeros).

End HeartRate.

(** ** Window times and window groups: [process_samples] *)

(** A slice bound brought into [0 .. n] as Python does for [a[i:j:k]]. *)
Definition slice_bound (i step n : Z) : Z :=
  if i <? 0 then
    if i + n <? 0 then (if step <? 0 then -1 else 0) else i + n
  else if n <=? i then (if step <? 0 then n - 1 else n)
  else i.

(** [range(start, stop, step)] for a step that is not 0. *)
Definition range3 (start stop step : Z) : list Z :=
  let count :=
    if 0 <? step then (stop - start + step - 1) / step
    else (start - stop - step - 1) / (- step) in
  map (fun i => start + Z.of_nat i * step) (seq 0 (Z.to_nat count)).

(** [s.iloc[start:stop:step].reset_index(drop=True)]. *)
Definition iloc_slice (s : series) (start stop step : Z) : result series :=
  if step =? 0 then Raise ValueError
  else
    Return (map (fun i => nth (Z.to_nat i) s nan)
              (range3 (slice_bound start step (len s))
                      (slice_bound stop step (len s)) step)).

(** The TIME column: [self.time.iloc[0:-1:self.n_samples].reset_index(drop=True)]. *)
Definition time_column (self : OfflineAnalysisANS) : result series :=
  time <- attribute (time self) ;;
  iloc_slice time 0 (-1) (n_samples self).

(** [groupby(keys)]: the positions that share a key, the groups in
    ascending key order, each in the order of the data. *)
Fixpoint group_insert (key position : Z) (groups : list (Z * list Z))
  : list (Z * list Z) :=
  match groups with
  | [] => [(key, [position])]
  | (key', members) :: groups' =>
      if key <? key' then (key, [position]) :: groups
      else if key =? key' then (key', members ++ [position]) :: groups'
      else (key', members) :: group_insert key position groups'
  end.

Definition groupby (keys : list Z) : list (Z * list Z) :=
  fold_left (fun groups pk => group_insert (snd pk) (fst pk) groups)
            (combine (arange 0 (len keys)) keys) [].

(** The groups of the GSR mean:
    [self.gsr.groupby(np.arange(len(self.gsr)) // self.n_samples)]. *)
Definition gsr_groups (self : OfflineAnalysisANS) : result (list (Z * list Z)) :=
  gsr <- attribute (gsr self) ;;
  Return (groupby (map (fun i => i / n_samples self) (arange 0 (len gsr)))).

(** ** Series arithmetic *)

(** [pd.isna] under [pd.options.mode.use_inf_as_na = True], which the
    module sets on import. *)
Definition isna (x : float) : bool := is_nan x || is_infinity x.

Definition float_min (a b : float) : float := if (b <? a)%float then b else a.
Definition float_max (a b : float) : float := if (a <? b)%float then b else a.

(** [s.min()] and [s.max()]: missing cells are skipped; NaN when none is
    left. *)
Definition series_min (s : series) : float :=
  match filter (fun x => negb (isna x)) s with
  | [] => nan
  | x :: xs => fold_left float_min xs x
  end.

Definition series_max (s : series) : float :=
  match filter (fun x => negb (isna x)) s with
  | [] => nan
  | x :: xs => fold_left float_max xs x
  end.

(** [s - c], [s.add(c)] and [s / c] for a float scalar [c], cell by cell.
    Float64 division follows IEEE 754: a zero divisor gives an infinity
    or NaN in the cell, and pandas raises nothing. *)
Definition series_sub (s : series) (c : float) : series :=
  map (fun v => (v - c)%float) s.

Definition series_add (s : series) (c : float) : series :=
  map (fun v => (v + c)%float) s.

Definition series_div (s : series) (c : float) : result series :=
  Return (map (fun v => (v / c)%float) s).

(** The float64 operand a Python scalar [w] becomes in [s * w]: an int is
    converted; a weight that is not a number is a [TypeError]. *)
Definition scalar_operand (w : pyval) : result float :=
  match as_num w with
  | Some (NFloat f) => Return f
  | Some (NInt z) => int_to_float z
  | None => Raise TypeError
  end.

(** [s * w] for a Python scalar [w], cell by cell. *)
Definition series_mul (s : series) (w : pyval) : result series :=
  f <- scalar_operand w ;;
  Return (map (fun v => (v * f)%float) s).

(** [a + b] for two columns of one frame: cell by cell along the shared
    index. *)
Definition series_plus (a b : series) : series :=
  map (fun p => (fst p + snd p)%float) (combine a b).

(** [w[key]] for the held weights: only a dict can be subscripted by a
    string key. *)
Definition weight (w : pyval) (key : string) : result pyval :=
  match w with
  | PyDict items => getitem items key
  | _ => Raise TypeError
  end.

(** ** Normalisation: [normalizing_values] *)

(** [self.processed_data[column]] and [self.processed_data[column] = s]. *)
Definition get_column (column : string) : method series :=
  fun self =>
    (df <- attribute (processed_data self) ;; frame_get df column, self).

Definition set_column (column : string) (s : series) : method unit :=
  fun self =>
    match processed_data self with
    | Some df => (Return tt, set_processed_data self (frame_set df column s))
    | None => (Raise AttributeError, self)
    end.

(** The two statements of the [try]: subtract the column's minimum, then
    divide by the maximum of what the first statement stored. *)
Definition normalize_try (column : string) : method unit :=
  c <~ get_column column ;;
  c' <~ get_column column ;;
  set_column column (series_sub c (series_min c')) ;;;
  c <~ get_column column ;;
  c' <~ get_column column ;;
  q <~ lift (series_div c (series_max c')) ;;
  set_column column q.

(** The three statements under [except ZeroDivisionError]. *)
Definition normalize_except (column : string) : method unit :=
  c <~ get_column column ;;
  set_column column (series_add c 1) ;;;
  normalize_try column.

(** [finally: self.normal_data = self.processed_data.copy()]. *)
Definition normalize_finally : method unit :=
  fun self =>
    match processed_data self with
    | Some df => (Return tt, set_normal_data self df)
    | None => (Raise AttributeError, self)
    end.

Definition is_ZeroDivisionError (e : exn) : bool :=
  match e with
  | ZeroDivisionError => true
  | _ => false
  end.

(** One iteration of the [for]: [min] and [max] are read first (and not
    used again), then the [try] statement runs. *)
Definition normalize_column (column : string) : method unit :=
  _min <~ get_column column ;;
  _max <~ get_column column ;;
  try_except_finally (normalize_try column) is_ZeroDivisionError
    (normalize_except column) normalize_finally.

Definition COLUMNS_LIST : list string := ["ECG"; "GSR"; "RESP"]%string.

Definition normalizing_values (columns_list : list string) : method unit :=
  for_each columns_list normalize_column.

(** ** Scoring: [score_adding] *)

Definition score_adding : method unit :=
  fun self =>
    match
      (normal_data <- attribute (normal_data self) ;;
       ecg <- frame_get normal_data "ECG" ;;
       w_ecg <- weight (weights self) "ECG" ;;
       a <- series_mul ecg w_ecg ;;
       gsr <- frame_get normal_data "GSR" ;;
       w_gsr <- weight (weights self) "GSR" ;;
       b <- series_mul gsr w_gsr ;;
       resp <- frame_get normal_data "RESP" ;;
       w_resp <- weight (weights self) "RESP" ;;
       c <- series_mul resp w_resp ;;
       Return (frame_set normal_data "Stress_Score"
                 (series_plus (series_plus a b) c)))
    with
    | Return scored =>
        (Return tt, set_scored_data (set_normal_data self scored) scored)
    | Raise e => (Raise e, self)
    end.

(** ** The prototype: [Indexing.py] *)

(** The functions of the prototype, each as it is written.  (The file
    also holds two [def] lines without a body, so as a module it does not
    load.)  It does not set [use_inf_as_na]: only NaN is a missing cell. *)
Module Indexing.

(** [s.min()] and [s.max()] with the options pandas starts with: NaN
    cells are skipped, infinite ones are not. *)
Definition series_min (s : series) : float :=
  match filter (fun x => negb (is_nan x)) s with
  | [] => nan
  | x :: xs => fold_left float_min xs x
  end.

Definition series_max (s : series) : float :=
  match filter (fun x => negb (is_nan x)) s with
  | [] => nan
  | x :: xs => fold_left float_max xs x
  end.

(** [normalizing_values(avg_data, columns_list)]: each column becomes
    [(column - min) / max] with [min] and [max] read before the update;
    the frame returned is a copy of the updated [avg_data]. *)
Fixpoint normalizing_values (avg_data : frame) (columns_list : list string)
  : result frame :=
  match columns_list with
  | [] => Return avg_data
  | column :: columns_list' =>
      c <- frame_get avg_data column ;;
      let min := series_min c in
      let max := series_max c in
      q <- series_div (series_sub c min) max ;;
      normalizing_values (frame_set avg_data column q) columns_list'
  end.

End Indexing.

(** ** Worked inputs *)

(** An object as [__init__] leaves it for 512 Hz and 10 s windows, with the
    given weights. *)
Definition an_object (w : pyval) : OfflineAnalysisANS :=
  mkANS (PyStr "Data.csv") (PyInt 512) (PyInt 10) w 5120
        None None None None None None [].

(** [{"ECG": 0.5, "GSR": 0.6, "RESP": 0.1}]: the weights sum to 1.2. *)
Definition WEIGHTS_SUM_OVER_ONE : pyval :=
  PyDict [(PyStr "ECG", PyFloat 0.5); (PyStr "GSR", PyFloat 0.6);
          (PyStr "RESP", PyFloat 0.1)].

(** [{"ECG": 10**400, "GSR": 0.5, "RESP": 0.5}]: an int too large for a
    float. *)
Definition WEIGHTS_HUGE_INT : pyval :=
  PyDict [(PyStr "ECG", PyInt (10 ^ 400)); (PyStr "GSR", PyFloat 0.5);
          (PyStr "RESP", PyFloat 0.5)].

(** Three ECG samples in an object with windows of two samples. *)
Definition SHORT_ECG : series := [0.1; 0.2; 0.3]%float.

Definition a_short_recording : OfflineAnalysisANS :=
  mkANS (PyStr "Data.csv") (PyInt 2) (PyInt 1) DEFAULT_WEIGHTS 2
        (Some [0; 0.5; 1]%float) (Some SHORT_ECG) (Some [5; 6; 7]%float)
        None None None [].

(** A table of three windows whose ECG column has maximum 0. *)
Definition ZERO_MAX_COLUMN : series := [-2; -1; 0]%float.

Definition a_processed_table : frame :=
  [("TIME", [0; 10; 20]); ("ECG", ZERO_MAX_COLUMN); ("RESP", [12; 15; 18]);
   ("GSR", [1; 2; 3])]%string%float.

Definition a_processed_object : OfflineAnalysisANS :=
  mkANS (PyStr "Data.csv") (PyInt 512) (PyInt 10) DEFAULT_WEIGHTS 5120
        None None None (Some a_processed_table) None None [].

(** One window with normalised values 0.2, 0.8 and 0.4, scored with the
    weights [{"ECG": 0.5, "GSR": 0.5, "RESP": 0.0}]. *)
Definition a_normal_table : frame :=
  [("TIME", [0]); ("ECG", [0.2]); ("RESP", [0.4]); ("GSR", [0.8])]%string%float.

Definition HALF_HALF_WEIGHTS : pyval :=
  PyDict [(PyStr "ECG", PyFloat 0.5); (PyStr "GSR", PyFloat 0.5);
          (PyStr "RESP", PyFloat 0)].

Definition a_normal_object : OfflineAnalysisANS :=
  mkANS (PyStr "Data.csv") (PyInt 512) (PyInt 10) HALF_HALF_WEIGHTS 5120
        None None None (Some a_normal_table) (Some a_normal_table) None [].

(** Three ECG samples in an object whose window, [10 ** 400] samples
    (1 s at [10 ** 400] Hz), is far longer than any recording. *)
Definition a_huge_window : OfflineAnalysisANS :=
  mkANS (PyStr "Data.csv") (PyInt (10 ^ 400)) (PyInt 1) DEFAULT_WEIGHTS (10 ^ 400)
        (Some [0; 0.5; 1]%float) (Some SHORT_ECG) (Some [5; 6; 7]%float)
        None None None [].

(** ** The windows as the specification draws them *)

(** [ceil(a / b)] in exact arithmetic: the least integer that is not
    below the quotient. *)
Definition exact_ceil (a b : Z) : Z := - ((- a) / b).

(** Chunk [k] of [L] samples in windows of [n]: the sample indices
    [[k * n, min((k + 1) * n, L))]. *)
Definition spec_chunk (n L k : Z) : list Z :=
  arange (k * n) (Z.min ((k + 1) * n) L).

(** ** The normaliser as the specification words it *)

(** The formula of the specification: [(value - min) / max], with [min]
    and [max] the minimum and maximum of the column as it was. *)
Definition spec_normalized (col : series) : series :=
  map (fun v => ((v - series_min col) / series_max col)%float) col.

(** The fallback of the specification for a column whose maximum is 0:
    add 1 to every value, then apply the same formula with the minimum and
    maximum of the shifted column. *)
Definition spec_fallback (col : series) : series :=
  spec_normalized (series_add col 1).

(** ** The normaliser in closed form *)

(** Every value minus the minimum of the column, over the maximum of
    those differences. *)
Definition min_max_scaled (col : series) : series :=
  let shifted := series_sub col (series_min col) in
  map (fun d => (d / series_max shifted)%float) shifted.

(** ** Outcomes with [IndexError] *)

(** The replay code and the prototype's scoring can also leave with an
    [IndexError] (a row position outside the table, [pop] on an empty
    list, a tuple too short). *)
Inductive outcome (A : Type) : Type :=
| Ok (a : A)
| Err (e : exn)
| ErrIndexError.

Arguments Ok {A} a.
Arguments Err {A} e.
Arguments ErrIndexError {A}.

Definition of_result {A : Type} (r : result A) : outcome A :=
  match r with
  | Return a => Ok a
  | Raise e => Err e
  end.

(** ** The prototype's scoring: [Indexing.index_adding] *)

(** [wights[k]] on a tuple. *)
Definition tuple_item (t : list pyval) (k : nat) : outcome pyval :=
  match nth_error t k with
  | Some v => Ok v
  | None => ErrIndexError
  end.

(** [index_adding(normal_data, wights)]: the argument frame gets the
    column Fear_Index, and a copy of it is returned. *)
Definition index_adding (normal_data : frame) (wights : list pyval) : outcome frame :=
  match frame_get normal_data "ECG" with
  | Raise e => Err e
  | Return ecg =>
  match tuple_item wights 0 with
  | Err e => Err e | ErrIndexError => ErrIndexError
  | Ok w0 =>
  match series_mul ecg w0 with
  | Raise e => Err e
  | Return a =>
  match frame_get normal_data "GSR" with
  | Raise e => Err e
  | Return gsr =>
  match tuple_item wights 1 with
  | Err e => Err e | ErrIndexError => ErrIndexError
  | Ok w1 =>
  match series_mul gsr w1 with
  | Raise e => Err e
  | Return b =>
  match frame_get normal_data "RESP" with
  | Raise e => Err e
  | Return resp =>
  match tuple_item wights 2 with
  | Err e => Err e | ErrIndexError => ErrIndexError
  | Ok w2 =>
  match series_mul resp w2 with
  | Raise e => Err e
  | Return c =>
      Ok (frame_set normal_data "Fear_Index" (series_plus (series_plus a b) c))
  end end end end end end end end end.

(** ** The replay: [online_simulation.py] *)

(** What [graph_x] and [graph_y] hold: a numpy array of floats, as
    [__init__] and every update that returns leave them, or the Python
    list that an update makes of it and leaves behind when it raises.  (In
    such a list the int index appended last is written as the float
    [np.array] would make of it.) *)
Inductive sequence : Type :=
| NdArray (values : list float)
| PyList (values : list float).

(** [a.tolist()]: an array has the method, a list has not. *)
Definition tolist (a : sequence) : result (list float) :=
  match a with
  | NdArray values => Return values
  | PyList _ => Raise AttributeError
  end.

(** The object of [OnlineAnalysisANS]: the attributes it inherits and the
    data of its line graph (the bar attributes only reach matplotlib). *)
Record OnlineAnalysisANS : Type := mkOnline {
  offline : OfflineAnalysisANS;
  graph_width : Z;
  graph_x : sequence;
  graph_y : sequence
}.

(** [len(df.index)]: the rows of a frame, the length its columns share. *)
Definition frame_rows (df : frame) : Z :=
  match df with
  | [] => 0
  | (_, s) :: _ => len s
  end.

(** The position a row index [i] denotes among [rows] rows ([iloc] counts
    a negative index from the end), if it denotes one. *)
Definition iloc_position (rows i : Z) : option nat :=
  if (- rows <=? i) && (i <? rows)
  then Some (Z.to_nat (if i <? 0 then i + rows else i))
  else None.

(** [s.iloc[i]]. *)
Definition iloc (s : series) (i : Z) : outcome float :=
  match iloc_position (len s) i with
  | Some k => Ok (nth k s nan)
  | None => ErrIndexError
  end.

(** The [fear_values] that [update_data_simulation(ax, i)] hands to
    [ax.bar]: row [i] of the scored table under ECG, GSR, RESP and
    Stress_Score. *)
Definition fear_values (self : OnlineAnalysisANS) (i : Z) : outcome (list float) :=
  match attribute (scored_data (offline self)) with
  | Raise e => Err e
  | Return scored =>
      match iloc_position (frame_rows scored) i with
      | None => ErrIndexError
      | Some k =>
          of_result
            (ecg <- frame_get scored "ECG" ;;
             gsr <- frame_get scored "GSR" ;;
             resp <- frame_get scored "RESP" ;;
             score <- frame_get scored "Stress_Score" ;;
             Return [nth k ecg nan; nth k gsr nan; nth k resp nan;
                     nth k score nan])
      end
  end.

(** The float an index becomes when [np.array] meets it among floats (an
    index that passed the row lookup is far below 2^53 and converts
    exactly). *)
Definition float_of_index (i : Z) : float :=
  SF2Prim (binary_normalize prec emax i 0 false).

(** [while len(graph_y) > graph_width: graph_y.pop(0); graph_x.pop(0)]:
    whether the loop ended without popping from an empty list, and the
    two lists it leaves. *)
Fixpoint pop_while_longer (graph_width : Z) (graph_y graph_x : list float)
  : bool * (list float * list float) :=
  match graph_y with
  | [] => (negb (graph_width <? 0), ([], graph_x))
  | _ :: graph_y' =>
      if graph_width <? len graph_y then
        match graph_x with
        | [] => (false, (graph_y', []))
        | _ :: graph_x' => pop_while_longer graph_width graph_y' graph_x'
        end
      else (true, (graph_y, graph_x))
  end.

(** [update_data_simulation_graph(i)]: the outcome and the object
    afterwards.  The two arrays become lists first, and arrays again only
    in the last two statements: an update that raises in between leaves
    lists in the object. *)
Definition update_data_simulation_graph (i : Z) (self : OnlineAnalysisANS)
  : outcome unit * OnlineAnalysisANS :=
  match tolist (graph_y self) with
  | Raise e => (Err e, self)
  | Return y0 =>
  let self1 := mkOnline (offline self) (graph_width self) (graph_x self) (PyList y0) in
  match tolist (graph_x self) with
  | Raise e => (Err e, self1)
  | Return x0 =>
  let self2 := mkOnline (offline self) (graph_width self) (PyList x0) (PyList y0) in
  match attribute (scored_data (offline self)) with
  | Raise e => (Err e, self2)
  | Return scored =>
  match frame_get scored "Stress_Score" with
  | Raise e => (Err e, self2)
  | Return score =>
  match iloc score i with
  | Err e => (Err e, self2)
  | ErrIndexError => (ErrIndexError, self2)
  | Ok v =>
      let y := y0 ++ [v] in
      let x := x0 ++ [float_of_index i] in
      let '(ended, (y', x')) := pop_while_longer (graph_width self) y x in
      if ended
      then (Ok tt, mkOnline (offline self) (graph_width self) (NdArray x') (NdArray y'))
      else (ErrIndexError,
            mkOnline (offline self) (graph_width self) (PyList x') (PyList y'))
  end end end end end.

(** The updates of the loop of [gragh_simulation] over the row indices
    [indices] (drawing and sleeping left out): it stops at the first
    update that raises. *)
Fixpoint graph_updates (indices : list Z) (self : OnlineAnalysisANS)
  : outcome unit * OnlineAnalysisANS :=
  match indices with
  | [] => (Ok tt, self)
  | i :: indices' =>
      match update_data_simulation_graph i self with
      | (Ok _, self') => graph_updates indices' self'
      | failed => failed
      end
  end.

(** The loop of [gragh_simulation] once the data are computed:
    [for i in range(len(self.scored_data.index))], one update each. *)
Definition gragh_simulation_updates (self : OnlineAnalysisANS)
  : outcome unit * OnlineAnalysisANS :=
  match attribute (scored_data (offline self)) with
  | Raise e => (Err e, self)
  | Return scored => graph_updates (py_range (frame_rows scored)) self
  end.

(** The last [n] elements of a list. *)
Definition last_n {A : Type} (n : Z) (l : list A) : list A :=
  skipn (List.length l - Z.to_nat n) l.

(** The prototype's normaliser in closed form: every value minus the
    minimum of the column, over the maximum of the column. *)
Definition prototype_normalized (col : series) : series :=
  map (fun v => ((v - Indexing.series_min col) / Indexing.series_max col)%float) col.

(** * Properties *)

(** ** Small facts about outcomes and floats *)

Lemma float_neq (x y : float) : (x =? x)%float = true -> (x =? y)%float = false -> x <> y.
Proof. intros Hx Hxy E. rewrite <- E in Hxy. congruence. Qed.

Lemma eq_str_true (k : pyval) (s : string) : eq_str k s = true -> k = PyStr s.
Proof.
  destruct k; simpl; try discriminate.
  intros H. apply String.eqb_eq in H. now subst.
Qed.

(** A dict that passes the key test has exactly the three items, in order. *)
Lemma keys_equal_weight_keys (items : list (pyval * pyval)) :
  keys_equal items WEIGHT_KEYS = true ->
  exists e g r,
    items = [(PyStr "ECG", e); (PyStr "GSR", g); (PyStr "RESP", r)].
Proof.
  unfold WEIGHT_KEYS.
  destruct items as [|[k1 v1] [|[k2 v2] [|[k3 v3] [|[k4 v4] ?]]]]; simpl;
    try discriminate;
    try (intros H; repeat (apply andb_prop in H; destruct H as [? H]); discriminate).
  intros H.
  apply andb_prop in H; destruct H as [H1 H].
  apply andb_prop in H; destruct H as [H2 H].
  apply andb_prop in H; destruct H as [H3 _].
  apply eq_str_true in H1, H2, H3. subst.
  now exists v1, v2, v3.
Qed.

(** ** Weight validation *)

(** The only [return] of the validation returns [True]. *)
Lemma validate_weights_returns_true (w : pyval) (b : bool) :
  validate_weights w = Return b -> b = true.
Proof.
  unfold validate_weights, bind.
  repeat match goal with
         | |- context [match ?x with _ => _ end] => destruct x; try discriminate
         | |- context [if ?c then _ else _] => destruct c; try discriminate
         end.
  congruence.
Qed.

Lemma sum_from_exn (values : list pyval) (acc : pynum) (e : exn) :
  sum_from acc values = Raise e -> e = TypeError \/ e = OverflowError.
Proof.
  revert acc. induction values as [|v values IH]; simpl; intros acc H.
  - discriminate.
  - destruct (as_num v) as [n|]; [|left; congruence].
    destruct (py_add acc n) as [acc'|e'] eqn:Hadd; simpl in H.
    + eauto.
    + right. inversion H; subst e'. clear H.
      unfold py_add, int_to_float, bind in Hadd.
      destruct acc, n; try discriminate;
        destruct (is_infinity _); congruence.
Qed.

(** What the validation can raise. *)
Lemma validate_weights_exn (w : pyval) (e : exn) :
  validate_weights w = Raise e ->
  e = TypeError \/ e = ValueError \/ e = OverflowError.
Proof.
  unfold validate_weights.
  destruct w; try (intros H; left; congruence).
  destruct (negb (Nat.eqb (List.length items) 3)); [intros H; right; left; congruence|].
  destruct (keys_equal items WEIGHT_KEYS) eqn:Hk; simpl;
    [|intros H; right; left; congruence].
  destruct (keys_equal_weight_keys _ Hk) as (ev & gv & rv & ->). simpl.
  destruct (as_num ev); [|intros H; left; congruence].
  destruct (as_num gv); [|intros H; left; congruence].
  destruct (as_num rv); [|intros H; left; congruence].
  destruct (py_sum _) as [s|e'] eqn:Hs; simpl.
  - destruct (ne_one s); [intros H; right; left; congruence|].
    destruct (negb _); [intros H; right; left; congruence|discriminate].
  - intros H; inversion H; subst e'.
    apply sum_from_exn in Hs. tauto.
Qed.

Lemma check_weights_input_outcome (self : OfflineAnalysisANS) :
  fst (check_weights_input self) = validate_weights (weights self).
Proof.
  unfold check_weights_input, mbind, say, mret.
  destruct (validate_weights (weights self)); reflexivity.
Qed.

(** When the validation raises, [change_weights] raises the same
    exception and the object keeps the rejected weights. *)
Lemma change_weights_invalid (self : OfflineAnalysisANS) (new_weights : pyval) (e : exn) :
  validate_weights new_weights = Raise e ->
  change_weights new_weights self = (Raise e, set_weights self new_weights).
Proof.
  intros H.
  unfold change_weights, check_weights_input, mbind, assign_weights, say, mret.
  cbn [weights set_weights]. rewrite H. reflexivity.
Qed.

(** C9 (amended).  [check_weights_input] never returns a falsy value: for
    every held weights value it returns [True] or raises, and what it
    raises is [TypeError], [ValueError] or, from [sum] when an int weight
    is too large to be added to a float, [OverflowError].  Hence the branch
    of [change_weights] that restores the old weights never runs:
    [change_weights] stores the new weights, runs the check, and stores
    the new weights again when the check returns. *)
Theorem check_weights_input_never_falsy (self : OfflineAnalysisANS) (new_weights : pyval) :
  (fst (check_weights_input self) = Return true \/
   fst (check_weights_input self) = Raise TypeError \/
   fst (check_weights_input self) = Raise ValueError \/
   fst (check_weights_input self) = Raise OverflowError) /\
  change_weights new_weights self =
  (assign_weights new_weights ;;;
   _ok <~ check_weights_input ;;
   assign_weights new_weights) self.
Proof.
  split.
  - rewrite check_weights_input_outcome.
    destruct (validate_weights (weights self)) as [b|e] eqn:H.
    + left. f_equal. eapply validate_weights_returns_true; eauto.
    + right. destruct (validate_weights_exn _ _ H) as [->|[->| ->]]; auto.
  - unfold change_weights, check_weights_input, mbind, assign_weights, say, mret.
    cbn [weights set_weights].
    destruct (validate_weights new_weights) as [b|e] eqn:H; [|reflexivity].
    rewrite (validate_weights_returns_true _ _ H). reflexivity.
Qed.

(** C9 as stated fails on [{"ECG": 10**400, "GSR": 0.5, "RESP": 0.5}]: the
    check neither returns [True] nor raises [TypeError] or [ValueError];
    [sum] raises [OverflowError]. *)
Lemma check_weights_input_overflow :
  fst (check_weights_input (an_object WEIGHTS_HUGE_INT)) = Raise OverflowError /\
  ~ (fst (check_weights_input (an_object WEIGHTS_HUGE_INT)) = Return true \/
     fst (check_weights_input (an_object WEIGHTS_HUGE_INT)) = Raise TypeError \/
     fst (check_weights_input (an_object WEIGHTS_HUGE_INT)) = Raise ValueError).
Proof.
  assert (H : fst (check_weights_input (an_object WEIGHTS_HUGE_INT))
              = Raise OverflowError) by (vm_compute; reflexivity).
  split; [exact H|].
  rewrite H. intros [E|[E|E]]; discriminate E.
Qed.

(** C1 at a failing input.  With the default weights held (which pass the
    check), [change_weights({"ECG": 0.5, "GSR": 0.6, "RESP": 0.1})] raises
    [ValueError] and leaves the rejected weights in the object: the held
    weights afterwards are not the ones held before, and nothing was
    printed. *)
Theorem change_weights_rejected_weights_stay :
  validate_weights DEFAULT_WEIGHTS = Return true /\
  validate_weights WEIGHTS_SUM_OVER_ONE = Raise ValueError /\
  change_weights WEIGHTS_SUM_OVER_ONE (an_object DEFAULT_WEIGHTS)
  = (Raise ValueError, an_object WEIGHTS_SUM_OVER_ONE) /\
  weights (snd (change_weights WEIGHTS_SUM_OVER_ONE (an_object DEFAULT_WEIGHTS)))
  <> DEFAULT_WEIGHTS.
Proof.
  assert (Hbad : validate_weights WEIGHTS_SUM_OVER_ONE = Raise ValueError)
    by (vm_compute; reflexivity).
  split; [vm_compute; reflexivity|].
  split; [exact Hbad|].
  rewrite (change_weights_invalid _ _ _ Hbad).
  split; [reflexivity|].
  cbn [snd weights set_weights an_object].
  unfold WEIGHTS_SUM_OVER_ONE, DEFAULT_WEIGHTS. intros E.
  apply (f_equal (fun w => match w with
                           | PyDict ((_, PyFloat f) :: _) => f
                           | _ => 0%float
                           end)) in E.
  revert E. apply float_neq; vm_compute; reflexivity.
Qed.

(** ** Construction *)

(** C6 as stated fails: [sample_rate = 0] and [time_window = -10] are
    accepted; the object is built with [n_samples = 0]. *)
Lemma init_accepts_non_positive :
  __init__ (fun _ => Return true) (PyStr "Data.csv") (PyInt 0) (PyInt (-10))
    DEFAULT_WEIGHTS
  = Return (mkANS (PyStr "Data.csv") (PyInt 0) (PyInt (-10)) DEFAULT_WEIGHTS 0
                  None None None None None None
                  [WeightsAreValid DEFAULT_WEIGHTS]).
Proof. vm_compute. reflexivity. Qed.

(** C6 (amended).  For every [sample_rate] or [time_window] argument that
    is not an [int], construction fails: with [TypeError], unless the
    [data_path] check fails first, with [ValueError] for a path or string
    that does not exist and with the exception of [Path(data_path).exists()]
    when the lookup itself raises.  So construction succeeding implies that
    both are ints; their sign is not checked. *)
Theorem init_requires_int_rate_and_window (path_exists : string -> result bool)
    (data_path sample_rate time_window weights : pyval) :
  isinstance_int sample_rate = false \/ isinstance_int time_window = false ->
  __init__ path_exists data_path sample_rate time_window weights
  = Raise (if isinstance_path_or_str data_path
           then match path_exists (path_string data_path) with
                | Return true => TypeError
                | Return false => ValueError
                | Raise e => e
                end
           else TypeError)
  /\ forall self,
      __init__ path_exists data_path sample_rate time_window weights <> Return self.
Proof.
  intros H.
  assert (E : __init__ path_exists data_path sample_rate time_window weights
              = Raise (if isinstance_path_or_str data_path
                       then match path_exists (path_string data_path) with
                            | Return true => TypeError
                            | Return false => ValueError
                            | Raise e => e
                            end
                       else TypeError)).
  { unfold __init__.
    destruct (isinstance_path_or_str data_path); simpl; [|reflexivity].
    destruct (path_exists (path_string data_path)) as [[|]|e]; simpl;
      try reflexivity.
    destruct (isinstance_int sample_rate); simpl; [|reflexivity].
    destruct (isinstance_int time_window); simpl; [|reflexivity].
    destruct H; discriminate. }
  split; [exact E|].
  intros self. rewrite E. discriminate.
Qed.

Lemma init_requires_int_rate_and_window_witness :
  __init__ (fun _ => Return true) (PyStr "Data.csv") (PyFloat 512) (PyInt 10)
    DEFAULT_WEIGHTS
  = Raise TypeError.
Proof.
  exact (proj1 (init_requires_int_rate_and_window (fun _ => Return true)
                  (PyStr "Data.csv") (PyFloat 512) (PyInt 10) DEFAULT_WEIGHTS
                  (or_introl eq_refl))).
Defined.

(** ** Arrays and ranges *)

Lemma list_set_length {A : Type} (a : list A) (k : nat) (v : A) :
  List.length (list_set a k v) = List.length a.
Proof.
  revert k. induction a as [|x a IH]; intros [|k]; simpl; auto.
Qed.

Lemma nth_list_set_same {A : Type} (a : list A) (k : nat) (v d : A) :
  (k < List.length a)%nat -> nth k (list_set a k v) d = v.
Proof.
  revert k. induction a as [|x a IH]; intros [|k]; simpl; intros H;
    try lia; auto.
  apply IH. lia.
Qed.

Lemma nth_list_set_other {A : Type} (a : list A) (j k : nat) (v d : A) :
  j <> k -> nth j (list_set a k v) d = nth j a d.
Proof.
  revert j k. induction a as [|x a IH]; intros [|j] [|k] H; simpl; auto;
    congruence.
Qed.

Lemma py_range_S (m : nat) :
  py_range (Z.of_nat (S m)) = py_range (Z.of_nat m) ++ [Z.of_nat m].
Proof.
  unfold py_range. rewrite !Nat2Z.id, seq_S, map_app. reflexivity.
Qed.

Lemma in_py_range (n k : Z) : In k (py_range n) <-> 0 <= k < n.
Proof.
  unfold py_range. rewrite in_map_iff. split.
  - intros (i & <- & Hi). apply in_seq in Hi. lia.
  - intros H. exists (Z.to_nat k). split; [lia|]. apply in_seq. lia.
Qed.

Lemma in_arange (a b k : Z) : In k (arange a b) <-> a <= k < b.
Proof.
  unfold arange. rewrite in_map_iff. split.
  - intros (i & <- & Hi). apply in_seq in Hi. lia.
  - intros H. exists (Z.to_nat (k - a)). split; [lia|]. apply in_seq. lia.
Qed.

Lemma nth_map_seq {A : Type} (f : nat -> A) (m i : nat) (d : A) :
  (i < m)%nat -> nth i (map f (seq 0 m)) d = f i.
Proof.
  intros H.
  rewrite nth_indep with (d' := f 0%nat) by (rewrite length_map, length_seq; lia).
  rewrite map_nth, seq_nth by lia. reflexivity.
Qed.

(** ** The float quotient and its ceiling *)

(** The exact ceiling for a positive divisor: the least [c] with
    [a <= c * b]. *)
Lemma exact_ceil_pos (a b : Z) :
  0 < b -> (exact_ceil a b - 1) * b < a <= exact_ceil a b * b.
Proof.
  intros Hb. unfold exact_ceil.
  pose proof (Z.div_mod (- a) b ltac:(lia)).
  pose proof (Z.mod_pos_bound (- a) b Hb). nia.
Qed.

(** Rounding moves a quotient by half a unit at most. *)
Lemma round_half_even_bounds (num den : Z) :
  0 < den ->
  2 * num - den <= 2 * (round_half_even num den * den) <= 2 * num + den.
Proof.
  intros Hd. unfold round_half_even.
  pose proof (Z.div_mod num den ltac:(lia)) as Hdm.
  pose proof (Z.mod_pos_bound num den Hd) as Hr.
  set (q := num / den) in *. set (r := num mod den) in *.
  destruct (Z.ltb_spec (2 * r) den); [nia|].
  destruct (Z.ltb_spec den (2 * r)); [nia|].
  destruct (Z.even q); nia.
Qed.

(** A mantissa within half a unit of [a * p / b], for a scale
    [p] above [b / 2], lies on the same side of every multiple of [p] as
    [a / b] does of the integers. *)
Lemma rounded_between (a b p m c : Z) :
  0 < b -> 0 < p ->
  2 * (a * p) - b <= 2 * (m * b) <= 2 * (a * p) + b ->
  (a <= c * b -> m <= c * p) /\
  (c * b <= a -> c * p <= m) /\
  (b < 2 * p -> c * b < a -> c * p < m) /\
  (b < 2 * p -> a < c * b -> m < c * p).
Proof.
  intros Hb Hp [Hlo Hhi]. repeat split.
  - intros H. assert (2 * (m * b) <= 2 * (c * p * b) + b) by nia.
    assert (2 * ((m - c * p) * b) <= b) by lia. nia.
  - intros H. assert (2 * (c * p * b) - b <= 2 * (m * b)) by nia.
    assert (2 * ((c * p - m) * b) <= b) by lia. nia.
  - intros H2 H. assert (Ha : c * b + 1 <= a) by lia.
    assert (2 * ((c * b + 1) * p) <= 2 * (a * p)) by nia.
    assert (0 < 2 * ((m - c * p) * b)) by nia. nia.
  - intros H2 H. assert (Ha : a + 1 <= c * b) by lia.
    assert (2 * ((a + 1) * p) <= 2 * (c * b * p)) by nia.
    assert (0 < 2 * ((c * p - m) * b)) by nia. nia.
Qed.

(** For a dividend below 2^53 the last bit of the quotient has a
    non-positive exponent [e], and the divisor is below [2 ^ (1 - e)]
    unless the quotient is subnormal. *)
Lemma quotient_exponent_small (a b : Z) :
  0 < a < 2 ^ 53 -> 0 < b ->
  let e := quotient_exponent a b in
  -1074 <= e <= 0 /\ (b < 2 ^ (1 - e) \/ (e = -1074 /\ 2 ^ 1075 <= b)).
Proof.
  intros Ha Hb. unfold quotient_exponent.
  set (k := Z.log2 b + 1).
  pose proof (Z.log2_nonneg b) as Hlb.
  pose proof (Z.log2_spec b Hb) as Hbk.
  replace (Z.succ (Z.log2 b)) with k in Hbk by (unfold k; lia).
  assert (Hk : 0 <= k) by (unfold k; lia).
  assert (Hpk : 0 < 2 ^ k) by (apply Z.pow_pos_nonneg; lia).
  set (x := a * 2 ^ k / b).
  assert (Hx : 1 <= x).
  { unfold x. apply Z.div_le_lower_bound; nia. }
  pose proof (Z.log2_spec x ltac:(lia)) as Hg.
  set (g := Z.log2 x) in *.
  assert (Hg0 : 0 <= g) by apply Z.log2_nonneg.
  assert (Hxb : x * b <= a * 2 ^ k).
  { unfold x. rewrite Z.mul_comm. apply Z.mul_div_le. lia. }
  assert (Hak : a * 2 ^ k < 2 ^ (53 + k)).
  { rewrite Z.pow_add_r by lia. nia. }
  assert (Hgk : g < 53 + k).
  { apply (Z.pow_lt_mono_r_iff 2); [lia|lia|]. nia. }
  split; [lia|].
  destruct (Z.max_spec (g - k - 52) (-1074)) as [[Hlt ->]|[Hge ->]].
  - destruct (Z_lt_le_dec b (2 ^ 1075)) as [Hs|Hl]; [left|right; split; [reflexivity|exact Hl]].
    exact Hs.
  - left. replace (1 - (g - k - 52)) with (53 + k - g) by lia.
    assert (Hsplit : 2 ^ (53 + k) = 2 ^ g * 2 ^ (53 + k - g)).
    { rewrite <- Z.pow_add_r by lia. f_equal. lia. }
    assert (0 < 2 ^ g) by (apply Z.pow_pos_nonneg; lia).
    nia.
Qed.

(** For a dividend below 2^53 the float quotient has the floor of the
    exact quotient, and its ceiling unless the divisor reaches 2^1075
    (where the quotient of 1 underflows to zero). *)
Lemma nearest_binary64_exact (a b : Z) :
  0 < a < 2 ^ 53 -> 0 < b ->
  exists m e,
    nearest_binary64 a b = (m, e) /\
    -1074 <= e <= 0 /\ 0 <= m <= a * 2 ^ (- e) /\
    m / 2 ^ (- e) = a / b /\
    (b < 2 ^ 1075 -> - ((- m) / 2 ^ (- e)) = exact_ceil a b).
Proof.
  intros Ha Hb. unfold nearest_binary64.
  destruct (quotient_exponent_small a b Ha Hb) as [He Hscale].
  set (e := quotient_exponent a b) in *.
  rewrite (Z.max_l 0 e), (Z.max_r 0 (- e)), Z.pow_0_r, Z.mul_1_r by lia.
  set (p := 2 ^ (- e)).
  assert (Hp : 0 < p) by (apply Z.pow_pos_nonneg; lia).
  assert (Hp2 : 2 ^ (1 - e) = 2 * p).
  { unfold p. replace (1 - e) with (1 + - e) by lia.
    rewrite Z.pow_add_r by lia. reflexivity. }
  pose proof (round_half_even_bounds (a * p) b Hb) as Hm.
  set (m := round_half_even (a * p) b) in *.
  exists m, e. split; [reflexivity|]. split; [exact He|].
  pose proof (Z.div_mod a b ltac:(lia)) as Hdm.
  pose proof (Z.mod_pos_bound a b Hb) as Hr.
  assert (Hq : 0 <= a / b) by (apply Z.div_pos; lia).
  set (c := exact_ceil a b).
  assert (Hc : (c - 1) * b < a <= c * b).
  { unfold c, exact_ceil.
    pose proof (Z.div_mod (- a) b ltac:(lia)).
    pose proof (Z.mod_pos_bound (- a) b Hb). nia. }
  assert (Hca : 1 <= c <= a) by nia.
  destruct Hscale as [Hscale|[He' Hbig]].
  - rewrite Hp2 in Hscale.
    destruct (rounded_between a b p m (a / b) Hb Hp Hm) as (_ & Hlo & _ & _).
    destruct (rounded_between a b p m (a / b + 1) Hb Hp Hm) as (_ & _ & _ & Hhi).
    destruct (rounded_between a b p m c Hb Hp Hm) as (Hup & _ & _ & _).
    destruct (rounded_between a b p m (c - 1) Hb Hp Hm) as (_ & _ & Hdn & _).
    specialize (Hlo ltac:(nia)). specialize (Hhi Hscale ltac:(nia)).
    specialize (Hup ltac:(lia)). specialize (Hdn Hscale ltac:(lia)).
    split; [nia|]. split.
    + symmetry. apply (Z.div_unique m p (a / b) (m - p * (a / b))); [left; nia|lia].
    + intros _. fold p.
      rewrite <- (Z.div_unique (- m) p (- c) (c * p - m)); [lia|left; nia|lia].
  - assert (H53 : 2 ^ 53 * 2 <= 2 ^ 1074) by (vm_compute; discriminate).
    assert (H75 : 2 ^ 1075 = 2 * p).
    { unfold p. rewrite He'. reflexivity. }
    assert (Hp74 : p = 2 ^ 1074) by (unfold p; rewrite He'; reflexivity).
    assert (Hm0 : 0 <= m) by nia.
    assert (Hm1 : 2 * m <= a + 1) by nia.
    split; [nia|]. split.
    + rewrite (Z.div_small a b) by lia. apply Z.div_small. lia.
    + intros Hsmall. lia.
Qed.

(** The quotient on some ints: [7 / 2] is 3.5; [3 / 10 ** 400] underflows
    to 0.0; [1 / 2 ** 1074] is the least subnormal, [1 / 2 ** 1075] is
    0.0; [(2 ** 53 + 1) / 1] rounds to 2^53; a divisor of 0 and a quotient
    of 2^1024 or more raise. *)
Example ceil_div_on_some_ints :
  ceil_div 7 2 = Return 4 /\ ceil_div (-7) 2 = Return (-3) /\
  ceil_div 3 (10 ^ 400) = Return 0 /\
  ceil_div 1 (2 ^ 1074) = Return 1 /\ ceil_div 1 (2 ^ 1075) = Return 0 /\
  ceil_div (2 ^ 53 + 1) 1 = Return (2 ^ 53) /\
  ceil_div (2 ^ 60 - 1) (- 2 ^ 60) = Return (-1) /\
  ceil_div 3 0 = Raise ZeroDivisionError /\
  ceil_div (10 ^ 400) 1 = Raise OverflowError.
Proof. repeat split; vm_compute; reflexivity. Qed.

(** [math.ceil(a / b)] is the exact ceiling for [0 <= a < 2^53] and a
    divisor below 2^1075 that is not 0. *)
Lemma ceil_div_exact (a b : Z) :
  0 <= a < 2 ^ 53 -> b <> 0 -> b < 2 ^ 1075 ->
  ceil_div a b = Return (exact_ceil a b).
Proof.
  intros Ha Hb0 Hb. unfold ceil_div, int_true_divide.
  destruct (Z.eqb_spec b 0); [contradiction|].
  destruct (Z.eqb_spec a 0) as [->|Ha0].
  { simpl. unfold exact_ceil. rewrite Z.div_0_l by assumption. reflexivity. }
  rewrite (Z.abs_eq a), (Z.sgn_pos a) by lia.
  destruct (Z_lt_le_dec 0 b) as [Hpos|Hneg].
  - rewrite (Z.abs_eq b), (Z.sgn_pos b) by lia.
    destruct (nearest_binary64_exact a b ltac:(lia) Hpos)
      as (m & e & -> & He & Hm & _ & Hceil).
    specialize (Hceil Hb).
    assert (Hov : (0 <=? e) && (2 ^ 1024 <=? m * 2 ^ e) = false).
    { destruct (Z.leb_spec 0 e); [|reflexivity]. simpl.
      assert (e = 0) as -> by lia. simpl in Hm.
      apply Z.leb_gt. rewrite Z.pow_0_r.
      assert (2 ^ 53 < 2 ^ 1024) by (vm_compute; reflexivity). lia. }
    rewrite Hov. cbn [bind]. f_equal. unfold math_ceil.
    replace (1 * 1 * m) with m by lia.
    destruct (Z.leb_spec 0 e); [|exact Hceil].
    assert (e = 0) as -> by lia. rewrite <- Hceil. simpl.
    rewrite Z.div_1_r. lia.
  - assert (Hb' : 0 < - b) by lia.
    rewrite (Z.abs_neq b), (Z.sgn_neg b) by lia.
    destruct (nearest_binary64_exact a (- b) ltac:(lia) Hb')
      as (m & e & -> & He & Hm & Hfloor & _).
    assert (Hov : (0 <=? e) && (2 ^ 1024 <=? m * 2 ^ e) = false).
    { destruct (Z.leb_spec 0 e); [|reflexivity]. simpl.
      assert (e = 0) as -> by lia. simpl in Hm.
      apply Z.leb_gt. rewrite Z.pow_0_r.
      assert (2 ^ 53 < 2 ^ 1024) by (vm_compute; reflexivity). lia. }
    rewrite Hov. cbn [bind]. f_equal. unfold math_ceil, exact_ceil.
    replace (1 * -1 * m) with (- m) by lia.
    assert (Hx : - a / b = a / - b).
    { rewrite <- (Z.div_opp_opp a (- b)) by lia. f_equal. lia. }
    rewrite Hx, <- Hfloor.
    destruct (Z.leb_spec 0 e).
    + assert (e = 0) as -> by lia. simpl. rewrite Z.div_1_r. lia.
    + f_equal. f_equal. lia.
Qed.

(** [math.ceil(a / b)] for a length [a] below 2^53 and a positive [b]
    below 2^1075: the least [c] with [a <= c * b]. *)
Lemma ceil_div_pos (a b : Z) :
  0 <= a < 2 ^ 53 -> 0 < b < 2 ^ 1075 ->
  exists c, ceil_div a b = Return c /\ c = exact_ceil a b /\
            (c - 1) * b < a <= c * b.
Proof.
  intros Ha Hb. exists (exact_ceil a b).
  split; [apply ceil_div_exact; lia|]. split; [reflexivity|].
  apply exact_ceil_pos. lia.
Qed.

(** A chunk of labels with one label past the end cannot be read. *)
Lemma getitem_labels_missing (s : series) (labels : list Z) (k : Z) :
  In k labels -> len s <= k -> getitem_labels s labels = Raise KeyError.
Proof.
  intros Hin Hk. induction labels as [|l labels IH]; [contradiction|].
  simpl. unfold getitem_label.
  destruct ((0 <=? l) && (l <? len s)) eqn:Hl; simpl; [|reflexivity].
  destruct Hin as [->|Hin].
  - apply andb_prop in Hl. lia.
  - rewrite (IH Hin). reflexivity.
Qed.

(** ** Float order *)

Lemma SFcompare_antisym (a b : spec_float) :
  SFcompare b a = option_map CompOpp (SFcompare a b).
Proof.
  destruct a as [sa|sa| |sa ma ea], b as [sb|sb| |sb mb eb];
    try destruct sa; try destruct sb; simpl; try reflexivity;
    rewrite (Z.compare_antisym ea eb);
    destruct (ea ?= eb); simpl; try reflexivity;
    pose proof (Pos.compare_cont_antisym ma mb Eq) as H; simpl in H;
    rewrite H; reflexivity.
Qed.

(** [x < y] and [y <= x] exclude each other, NaN included. *)
Lemma ltb_leb_false (x y : float) :
  (x <? y)%float = true -> (y <=? x)%float = false.
Proof.
  rewrite ltb_spec, leb_spec. unfold SFltb, SFleb.
  rewrite (SFcompare_antisym (Prim2SF x) (Prim2SF y)).
  destruct (SFcompare (Prim2SF x) (Prim2SF y)) as [[| |]|]; simpl;
    congruence.
Qed.

(** ** The heart-rate loop *)

Section HeartRateLoop.

Variable hp_process : series -> pyval -> result float.
Variables (E : series) (n : Z) (sr : pyval) (N : Z).

Local Abbreviation iteration := (heart_rate_iteration hp_process E n sr N).
Local Abbreviation attempt := (heart_rate_try hp_process E n sr N).

(** The array after the first [m] iterations. *)
Local Abbreviation after m zeros := (fold_left iteration (py_range (Z.of_nat m)) zeros).

Lemma iteration_length (a : list float) (k : Z) :
  List.length (iteration a k) = List.length a.
Proof.
  unfold heart_rate_iteration, array_set.
  destruct (attempt k); [|destruct (k =? 0)]; apply list_set_length.
Qed.

Lemma iteration_other (a : list float) (k : Z) (j : nat) :
  j <> Z.to_nat k -> nth j (iteration a k) nan = nth j a nan.
Proof.
  intros H. unfold heart_rate_iteration, array_set.
  destruct (attempt k); [|destruct (k =? 0)]; now apply nth_list_set_other.
Qed.

Lemma after_S (m : nat) (zeros : list float) :
  after (S m) zeros = iteration (after m zeros) (Z.of_nat m).
Proof. rewrite py_range_S, fold_left_app. reflexivity. Qed.

Lemma after_length (m : nat) (zeros : list float) :
  List.length (after m zeros) = List.length zeros.
Proof.
  induction m as [|m IH]; [reflexivity|].
  rewrite after_S, iteration_length. exact IH.
Qed.

(** Iteration [j] is the last to write cell [j]. *)
Lemma after_stable (j m : nat) (zeros : list float) :
  (j < m)%nat -> nth j (after m zeros) nan = nth j (after (S j) zeros) nan.
Proof.
  induction m as [|m IH]; intros H; [lia|].
  destruct (Nat.eq_dec j m) as [->|Hne]; [reflexivity|].
  rewrite after_S, iteration_other by (rewrite Nat2Z.id; exact Hne).
  apply IH. lia.
Qed.

(** What iteration [j] writes. *)
Lemma after_at (j : nat) (zeros : list float) :
  (j < List.length zeros)%nat ->
  nth j (after (S j) zeros) nan =
  match attempt (Z.of_nat j) with
  | Return bpm => bpm
  | Raise _ => if Z.of_nat j =? 0 then nan else nth (j - 1) (after j zeros) nan
  end.
Proof.
  intros H. rewrite after_S.
  unfold heart_rate_iteration, array_set, array_get.
  rewrite Nat2Z.id.
  destruct (attempt (Z.of_nat j)); [|destruct (Z.of_nat j =? 0)];
    rewrite nth_list_set_same by (rewrite after_length; exact H);
    try reflexivity.
  f_equal. lia.
Qed.

(** The finished array, cell by cell. *)
Lemma loop_cells (zeros : list float) (j : nat) :
  (j < List.length zeros)%nat ->
  nth j (after (List.length zeros) zeros) nan =
  match attempt (Z.of_nat j) with
  | Return bpm => bpm
  | Raise _ =>
      if Z.of_nat j =? 0 then nan
      else nth (j - 1) (after (List.length zeros) zeros) nan
  end.
Proof.
  intros H. rewrite after_stable, after_at by assumption.
  destruct (attempt (Z.of_nat j)); [reflexivity|].
  destruct (Z.eqb_spec (Z.of_nat j) 0); [reflexivity|].
  rewrite (after_stable (j - 1) (List.length zeros)) by lia.
  replace (S (j - 1)) with j by lia. reflexivity.
Qed.

(** A bpm that the [try] stores passed the plausibility test. *)
Lemma attempt_accepts (k : Z) (bpm : float) :
  attempt k = Return bpm -> (bpm <? 220)%float = true.
Proof.
  unfold heart_rate_try, bind.
  destruct (getitem_labels _ _); [|discriminate].
  destruct (hp_process _ _) as [b|]; [|discriminate].
  destruct (b <? 220)%float eqn:Hb; [|discriminate].
  congruence.
Qed.

End HeartRateLoop.

(** Whenever [heart_rate] returns, it returns one cell per chunk, each
    cell the accepted bpm of its chunk or, when the [try] fails, NaN
    (chunk 0) or the cell before. *)
Lemma heart_rate_cells_of_result (hp_process : series -> pyval -> result float)
    (self : OfflineAnalysisANS) (E : series) (out : list float) :
  ecg self = Some E ->
  heart_rate hp_process self = Return out ->
  exists N,
    ceil_div (len E) (n_samples self) = Return N /\
    len out = N /\
    forall k, 0 <= k < N ->
      array_get out k =
      match heart_rate_try hp_process E (n_samples self) (sample_rate self) N k with
      | Return bpm => bpm
      | Raise _ => if k =? 0 then nan else array_get out (k - 1)
      end.
Proof.
  intros HE Hout. unfold heart_rate in Hout. rewrite HE in Hout. simpl in Hout.
  destruct (ceil_div (len E) (n_samples self)) as [N|] eqn:HN; [|discriminate].
  simpl in Hout. unfold np_zeros in Hout.
  destruct (Z.ltb_spec N 0); [discriminate|]. simpl in Hout.
  exists N. split; [reflexivity|].
  set (zeros := repeat 0%float (Z.to_nat N)) in Hout.
  assert (Hz : List.length zeros = Z.to_nat N) by apply repeat_length.
  assert (Hout' : out = fold_left
                          (heart_rate_iteration hp_process E (n_samples self)
                             (sample_rate self) N)
                          (py_range (Z.of_nat (List.length zeros))) zeros).
  { rewrite Hz, Z2Nat.id by lia. congruence. }
  split.
  - unfold len. rewrite Hout', after_length. lia.
  - intros k Hk. unfold array_get.
    rewrite Hout', (loop_cells _ _ _ _ _ zeros (Z.to_nat k)) by lia.
    rewrite Z2Nat.id by lia.
    destruct (heart_rate_try _ _ _ _ _ _); [reflexivity|].
    destruct (k =? 0); [reflexivity|].
    f_equal. lia.
Qed.

(** [heart_rate] returns for every positive window size below 2^1075 and
    every series of fewer than 2^53 samples, with [ceil(len / n_samples)]
    cells. *)
Lemma heart_rate_cells (hp_process : series -> pyval -> result float)
    (self : OfflineAnalysisANS) (E : series) :
  ecg self = Some E -> 0 < n_samples self < 2 ^ 1075 -> len E < 2 ^ 53 ->
  exists N out,
    ceil_div (len E) (n_samples self) = Return N /\
    N = exact_ceil (len E) (n_samples self) /\
    (N - 1) * n_samples self < len E <= N * n_samples self /\
    heart_rate hp_process self = Return out /\
    len out = N /\
    forall k, 0 <= k < N ->
      array_get out k =
      match heart_rate_try hp_process E (n_samples self) (sample_rate self) N k with
      | Return bpm => bpm
      | Raise _ => if k =? 0 then nan else array_get out (k - 1)
      end.
Proof.
  intros HE Hn HL.
  assert (HL0 : 0 <= len E) by (unfold len; lia).
  destruct (ceil_div_pos (len E) (n_samples self) ltac:(lia) Hn)
    as (N & HN & HNeq & Hb).
  assert (0 <= N) by nia.
  assert (Hout : exists out, heart_rate hp_process self = Return out).
  { unfold heart_rate. rewrite HE. simpl. rewrite HN. simpl.
    unfold np_zeros. destruct (Z.ltb_spec N 0); [lia|]. simpl. eauto. }
  destruct Hout as [out Hout].
  destruct (heart_rate_cells_of_result hp_process self E out HE Hout)
    as (N' & HN' & Hlen & Hcells).
  assert (N' = N) as -> by congruence.
  exists N, out. auto 6.
Qed.

(** Every cell of the result is NaN or a bpm below 220. *)
Lemma heart_rate_cells_plausible (hp_process : series -> pyval -> result float)
    (E : series) (n : Z) (sr : pyval) (N : Z) (out : list float) :
  (forall k, 0 <= k < N ->
     array_get out k =
     match heart_rate_try hp_process E n sr N k with
     | Return bpm => bpm
     | Raise _ => if k =? 0 then nan else array_get out (k - 1)
     end) ->
  forall k, 0 <= k < N ->
    array_get out k = nan \/ (array_get out k <? 220)%float = true.
Proof.
  intros Hcells k Hk.
  replace k with (Z.of_nat (Z.to_nat k)) in * by lia.
  induction (Z.to_nat k) as [|j IH].
  - rewrite Hcells by lia.
    destruct (heart_rate_try _ _ _ _ _ _) eqn:Ht; [|now left].
    right. eapply attempt_accepts; eauto.
  - rewrite Hcells by lia.
    destruct (heart_rate_try _ _ _ _ _ _) eqn:Ht.
    + right. eapply attempt_accepts; eauto.
    + destruct (Z.eqb_spec (Z.of_nat (S j)) 0); [now left|].
      replace (Z.of_nat (S j) - 1) with (Z.of_nat j) by lia.
      apply IH. lia.
Qed.

(** C4.  For every ECG input, whenever [heart_rate] returns it returns
    one cell per chunk of its loop, [math.ceil(len / n_samples)] of them,
    and for every chunk [k]: if the [try] of chunk [k] fails then the
    output at 0 is NaN when [k = 0] and the output at [k] is the output at
    [k - 1] when [k > 0].  The [try] fails when the chunk cannot be
    extracted, when the detector raises, and when the detector returns a
    bpm of 220 or more; such a rejected bpm is never the output.  And
    [heart_rate] does return, with exactly [ceil(len / n_samples)] cells,
    for every series of fewer than 2^53 samples and every positive window
    size below 2^1075. *)
Theorem heart_rate_carry_forward (hp_process : series -> pyval -> result float)
    (self : OfflineAnalysisANS) (E : series) :
  ecg self = Some E ->
  (0 < n_samples self < 2 ^ 1075 -> len E < 2 ^ 53 ->
   exists out,
     heart_rate hp_process self = Return out /\
     len out = exact_ceil (len E) (n_samples self)) /\
  forall out,
    heart_rate hp_process self = Return out ->
    ceil_div (len E) (n_samples self) = Return (len out) /\
    forall k, 0 <= k < len out ->
      let attempt :=
        heart_rate_try hp_process E (n_samples self) (sample_rate self) (len out) k in
      let chunk := data_chunk E (n_samples self) (len out) k in
      (raises attempt ->
       (k = 0 -> array_get out 0 = nan) /\
       (0 < k -> array_get out k = array_get out (k - 1))) /\
      (raises (getitem_labels E chunk) -> raises attempt) /\
      (forall relevant_data,
         getitem_labels E chunk = Return relevant_data ->
         raises (hp_process relevant_data (sample_rate self)) -> raises attempt) /\
      (forall relevant_data bpm,
         getitem_labels E chunk = Return relevant_data ->
         hp_process relevant_data (sample_rate self) = Return bpm ->
         (220 <=? bpm)%float = true ->
         raises attempt /\ array_get out k <> bpm).
Proof.
  intros HE. split.
  { intros Hn HL.
    destruct (heart_rate_cells hp_process self E HE Hn HL)
      as (N & out & _ & HN & _ & Hout & Hlen & _).
    exists out. split; [exact Hout|congruence]. }
  intros out Hout.
  destruct (heart_rate_cells_of_result hp_process self E out HE Hout)
    as (N & HN & Hlen & Hcells).
  rewrite Hlen. split; [exact HN|]. intros k Hk attempt chunk.
  assert (Hrej : forall relevant_data bpm,
             getitem_labels E chunk = Return relevant_data ->
             hp_process relevant_data (sample_rate self) = Return bpm ->
             (220 <=? bpm)%float = true -> attempt = Raise PlainException).
  { intros rel bpm Hrel Hbpm Hge. unfold attempt, heart_rate_try.
    fold chunk. rewrite Hrel. simpl. rewrite Hbpm. simpl.
    destruct (bpm <? 220)%float eqn:Hlt; [|reflexivity].
    apply ltb_leb_false in Hlt. congruence. }
  split; [|split; [|split]].
  - intros [e He]. pose proof (Hcells k Hk) as Hc. fold attempt in Hc.
    rewrite He in Hc. split.
    + intros ->. exact Hc.
    + intros Hpos. destruct (Z.eqb_spec k 0); [lia|]. exact Hc.
  - intros [e He]. exists e. unfold attempt, heart_rate_try.
    fold chunk. rewrite He. reflexivity.
  - intros rel Hrel [e He]. exists e. unfold attempt, heart_rate_try.
    fold chunk. rewrite Hrel. simpl. rewrite He. reflexivity.
  - intros rel bpm Hrel Hbpm Hge. split.
    + eexists. eapply Hrej; eauto.
    + intros Heq.
      destruct (heart_rate_cells_plausible _ _ _ _ _ _ Hcells k Hk) as [Hnan|Hlt].
      * rewrite Heq in Hnan. rewrite Hnan in Hge. vm_compute in Hge. discriminate.
      * rewrite Heq in Hlt. apply ltb_leb_false in Hlt. congruence.
Qed.

Lemma heart_rate_carry_forward_witness :
  exists out,
    heart_rate (fun _ _ => Return 250%float) a_short_recording = Return out /\
    len out = exact_ceil (len SHORT_ECG) (n_samples a_short_recording).
Proof.
  refine (proj1 (heart_rate_carry_forward (fun _ _ => Return 250%float)
                   a_short_recording SHORT_ECG eq_refl) _ _).
  - vm_compute. split; reflexivity.
  - vm_compute. reflexivity.
Defined.

(** On three samples in windows of two: a detector that answers 72 bpm
    gives 72 for chunk 0 and, chunk 1 reaching past the data, 72 again; a
    detector that answers 250 bpm gives NaN twice. *)
Example heart_rate_short_recording :
  heart_rate (fun _ _ => Return 72%float) a_short_recording
  = Return [72; 72]%float /\
  heart_rate (fun _ _ => Return 250%float) a_short_recording
  = Return [nan; nan].
Proof. split; vm_compute; reflexivity. Qed.

(** C10 as stated fails for a window of 2^1075 samples or more: three
    samples in windows of [10 ** 400] are one window in exact arithmetic
    (and 3 is not a multiple of the window size), but [3 / 10 ** 400] is
    the float 0.0, so [heart_rate] makes no chunk and returns the empty
    array: there is no final value, from the failure path or otherwise. *)
Lemma heart_rate_no_chunk_for_huge_window :
  0 < n_samples a_huge_window /\
  ecg a_huge_window = Some SHORT_ECG /\
  len SHORT_ECG mod n_samples a_huge_window <> 0 /\
  exact_ceil (len SHORT_ECG) (n_samples a_huge_window) = 1 /\
  ceil_div (len SHORT_ECG) (n_samples a_huge_window) = Return 0 /\
  forall hp_process,
    heart_rate hp_process a_huge_window = Return [] /\
    ~ (exists out, heart_rate hp_process a_huge_window = Return out /\ 0 < len out).
Proof.
  assert (H : forall hp_process, heart_rate hp_process a_huge_window = Return []).
  { intros hp_process. unfold heart_rate. cbn [ecg a_huge_window attribute bind].
    replace (ceil_div (len SHORT_ECG) (n_samples a_huge_window)) with (Return 0)
      by (vm_compute; reflexivity).
    reflexivity. }
  do 5 (split; [vm_compute; congruence|]).
  intros hp_process. split; [apply H|].
  intros (out & Hout & Hlen). rewrite H in Hout.
  inversion Hout; subst. vm_compute in Hlen. discriminate.
Qed.

(** C10 (amended).  In [heart_rate] the guard
    [data_chunks != number_of_chunks] holds in every iteration, so every
    chunk, the last included, ends at [(k + 1) * n_samples] and the [else]
    branch never runs.  Hence for every ECG series of fewer than 2^53
    samples whose length is not a multiple of [n_samples], with
    [0 < n_samples < 2^1075], the labels of the final chunk reach past the
    end of the data, the chunk cannot be read and its [try] fails,
    whatever the detector, and the final heart-rate value comes from the
    failure path: NaN when there is one window, the value of the window
    before otherwise. *)
Theorem heart_rate_partial_last_chunk (hp_process : series -> pyval -> result float)
    (self : OfflineAnalysisANS) (E : series) :
  (forall N k, In k (py_range N) ->
     negb (k =? N) = true /\
     data_chunk E (n_samples self) N k
     = arange (k * n_samples self) ((k + 1) * n_samples self)) /\
  (ecg self = Some E -> 0 < n_samples self < 2 ^ 1075 -> len E < 2 ^ 53 ->
   len E mod n_samples self <> 0 ->
   exists N out,
     ceil_div (len E) (n_samples self) = Return N /\
     N = exact_ceil (len E) (n_samples self) /\
     heart_rate hp_process self = Return out /\
     len out = N /\ 0 < N /\
     In (N * n_samples self - 1) (data_chunk E (n_samples self) N (N - 1)) /\
     len E <= N * n_samples self - 1 /\
     raises (getitem_labels E (data_chunk E (n_samples self) N (N - 1))) /\
     raises (heart_rate_try hp_process E (n_samples self) (sample_rate self)
               N (N - 1)) /\
     (N = 1 -> array_get out 0 = nan) /\
     (1 < N -> array_get out (N - 1) = array_get out (N - 2))).
Proof.
  assert (Hguard : forall N k, In k (py_range N) ->
            negb (k =? N) = true /\
            data_chunk E (n_samples self) N k
            = arange (k * n_samples self) ((k + 1) * n_samples self)).
  { intros N k Hk. apply in_py_range in Hk. unfold data_chunk.
    destruct (Z.eqb_spec k N); [lia|]. split; reflexivity. }
  split; [exact Hguard|].
  intros HE Hn HL Hmod.
  destruct (heart_rate_cells hp_process self E HE Hn HL)
    as (N & out & HN & HNeq & Hb & Hout & Hlen & Hcells).
  exists N, out.
  assert (Hlt : len E <= N * n_samples self - 1).
  { destruct (Z.eq_dec (len E) (N * n_samples self)) as [Heq|]; [|lia].
    rewrite Heq, Z.mod_mul in Hmod by lia. congruence. }
  assert (HNpos : 0 < N).
  { assert (0 < len E); [|nia].
    destruct (Z.eq_dec (len E) 0) as [H0|]; [|unfold len in *; lia].
    rewrite H0, Z.mod_0_l in Hmod by lia. congruence. }
  assert (Hin : In (N * n_samples self - 1)
                   (data_chunk E (n_samples self) N (N - 1))).
  { rewrite (proj2 (Hguard N (N - 1) ltac:(apply in_py_range; lia))).
    apply in_arange. nia. }
  assert (Htry : heart_rate_try hp_process E (n_samples self) (sample_rate self)
                   N (N - 1) = Raise KeyError).
  { unfold heart_rate_try.
    rewrite (getitem_labels_missing _ _ _ Hin Hlt). reflexivity. }
  repeat (split; [assumption|]).
  split; [exists KeyError; exact (getitem_labels_missing _ _ _ Hin Hlt)|].
  split; [exists KeyError; exact Htry|].
  pose proof (Hcells (N - 1) ltac:(lia)) as Hc. rewrite Htry in Hc.
  split.
  - intros ->. exact Hc.
  - intros H1. destruct (Z.eqb_spec (N - 1) 0); [lia|].
    replace (N - 2) with (N - 1 - 1) by lia. exact Hc.
Qed.

Lemma heart_rate_partial_last_chunk_witness :
  exists out,
    heart_rate (fun _ _ => Return 72%float) a_short_recording = Return out /\
    array_get out 1 = array_get out 0.
Proof.
  destruct (proj2 (heart_rate_partial_last_chunk (fun _ _ => Return 72%float)
                     a_short_recording SHORT_ECG) eq_refl)
    as (N & out & HN & _ & Hout & _ & _ & _ & _ & _ & _ & _ & Hlast).
  - vm_compute. split; reflexivity.
  - vm_compute. reflexivity.
  - vm_compute. discriminate.
  - exists out. split; [exact Hout|].
    assert (N = 2) as -> by (vm_compute in HN; congruence).
    apply Hlast. reflexivity.
Defined.

(** ** Window times *)

(** The TIME column for a positive window size: its entry [k] is the
    timestamp of sample [k * n_samples], and there is an entry for window
    [k] exactly when that sample is not the last one of the recording. *)
Lemma time_column_entries (self : OfflineAnalysisANS) (T : series) :
  time self = Some T -> 0 < n_samples self ->
  exists col,
    time_column self = Return col /\
    (forall k, 0 <= k < len col ->
       array_get col k = array_get T (k * n_samples self)) /\
    (forall k, 0 <= k -> (k < len col <-> k * n_samples self < len T - 1)).
Proof.
  intros HT Hn. unfold time_column. rewrite HT. simpl.
  unfold iloc_slice. destruct (Z.eqb_spec (n_samples self) 0) as [Hz|Hz]; [lia|].
  set (n := n_samples self) in *.
  set (L := len T).
  assert (HL : 0 <= L) by (unfold L, len; lia).
  assert (Hstart : slice_bound 0 n L = 0).
  { unfold slice_bound. change (0 <? 0) with false. cbv iota.
    destruct (Z.leb_spec L 0); [|reflexivity].
    destruct (Z.ltb_spec n 0); lia. }
  assert (Hstop : exists stop, slice_bound (-1) n L = stop /\ 0 <= stop /\
                               (stop = L - 1 \/ (L = 0 /\ stop = 0))).
  { unfold slice_bound. change (-1 <? 0) with true. cbv iota.
    destruct (Z.ltb_spec (-1 + L) 0).
    - destruct (Z.ltb_spec n 0); [lia|]. exists 0. lia.
    - exists (-1 + L). lia. }
  destruct Hstop as (stop & -> & Hstop0 & Hstop). rewrite Hstart.
  unfold range3. destruct (Z.ltb_spec 0 n); [|lia].
  set (count := (stop - 0 + n - 1) / n).
  assert (Hcount : (count - 1) * n < stop <= count * n).
  { unfold count. pose proof (Z.div_mod (stop - 0 + n - 1) n ltac:(lia)).
    pose proof (Z.mod_pos_bound (stop - 0 + n - 1) n Hn). nia. }
  assert (0 <= count) by nia.
  eexists. split; [reflexivity|]. split.
  - intros k Hk. unfold len in Hk. rewrite !length_map, length_seq in Hk.
    unfold array_get. rewrite map_map, nth_map_seq by lia.
    do 2 f_equal. lia.
  - intros k Hk. unfold len. rewrite !length_map, length_seq.
    split; intros Hlt.
    + assert (k < count) by lia. nia.
    + assert (k < count) by nia. lia.
Qed.

(** C7 at a failing input.  Three samples in windows of two make two
    windows, starting at samples 0 and 2; the TIME column has the
    timestamp of sample 0 only, the slice [0:-1:2] stopping before the
    last sample. *)
Theorem time_column_misses_last_window :
  ceil_div (len [0; 0.5; 1]%float) (n_samples a_short_recording) = Return 2 /\
  time a_short_recording = Some [0; 0.5; 1]%float /\
  time_column a_short_recording = Return [0%float] /\
  forall hp_process,
  exists hr0 hr1, heart_rate hp_process a_short_recording = Return [hr0; hr1].
Proof.
  repeat split; try (vm_compute; reflexivity).
  intros hp_process.
  destruct (heart_rate_cells hp_process a_short_recording SHORT_ECG eq_refl
              ltac:(vm_compute; split; reflexivity) ltac:(vm_compute; reflexivity))
    as (N & out & HN & _ & _ & Hout & Hlen & _).
  assert (N = 2) as -> by (vm_compute in HN; congruence).
  destruct out as [|hr0 [|hr1 [|? ?]]]; try (vm_compute in Hlen; discriminate).
  - exists hr0, hr1. exact Hout.
  - unfold len in Hlen. simpl List.length in Hlen. lia.
Qed.

(** ** Frames *)

Lemma frame_get_set_same (df : frame) (column : string) (s : series) :
  frame_get (frame_set df column s) column = Return s.
Proof.
  induction df as [|[c s'] df IH]; simpl.
  - now rewrite String.eqb_refl.
  - destruct (String.eqb c column) eqn:Hc; simpl; rewrite Hc; auto.
Qed.

Lemma frame_get_set_other (df : frame) (column column' : string) (s : series) :
  column <> column' ->
  frame_get (frame_set df column s) column' = frame_get df column'.
Proof.
  intros Hne. induction df as [|[c s'] df IH]; simpl.
  - destruct (String.eqb_spec column column'); [contradiction|reflexivity].
  - destruct (String.eqb_spec c column) as [->|Hc]; simpl.
    + destruct (String.eqb_spec column column'); [contradiction|reflexivity].
    + destruct (String.eqb c column'); auto.
Qed.

Lemma frame_set_set (df : frame) (column : string) (s s' : series) :
  frame_set (frame_set df column s) column s' = frame_set df column s'.
Proof.
  induction df as [|[c s0] df IH]; simpl.
  - now rewrite String.eqb_refl.
  - destruct (String.eqb c column) eqn:Hc; simpl; rewrite Hc; congruence.
Qed.

(** ** Normalisation *)

(** The [try] of one column runs to its end: it stores the scaled column,
    and no division raises. *)
Lemma normalize_try_spec (self : OfflineAnalysisANS) (df : frame)
    (column : string) (col : series) :
  processed_data self = Some df -> frame_get df column = Return col ->
  normalize_try column self
  = (Return tt,
     set_processed_data self (frame_set df column (min_max_scaled col))).
Proof.
  intros Hdf Hcol.
  unfold normalize_try, mbind, get_column, set_column, lift, series_div.
  rewrite Hdf. simpl. rewrite Hcol. simpl.
  rewrite frame_get_set_same. simpl.
  rewrite frame_set_set. reflexivity.
Qed.

(** One iteration of [normalizing_values]. *)
Lemma normalize_column_spec (self : OfflineAnalysisANS) (df : frame)
    (column : string) (col : series) :
  processed_data self = Some df -> frame_get df column = Return col ->
  normalize_column column self
  = (Return tt,
     set_normal_data
       (set_processed_data self (frame_set df column (min_max_scaled col)))
       (frame_set df column (min_max_scaled col))).
Proof.
  intros Hdf Hcol.
  unfold normalize_column, mbind, try_except_finally.
  unfold get_column at 1 2. rewrite Hdf. simpl. rewrite Hcol.
  rewrite (normalize_try_spec self df column col Hdf Hcol).
  reflexivity.
Qed.

(** The whole loop over distinct columns that the table has. *)
Lemma normalizing_values_spec (columns_list : list string) :
  forall (self : OfflineAnalysisANS) (df : frame),
    NoDup columns_list ->
    processed_data self = Some df ->
    (forall c, In c columns_list -> exists col, frame_get df c = Return col) ->
    exists df',
      fst (normalizing_values columns_list self) = Return tt /\
      processed_data (snd (normalizing_values columns_list self)) = Some df' /\
      normal_data (snd (normalizing_values columns_list self))
      = match columns_list with [] => normal_data self | _ => Some df' end /\
      (forall c col, In c columns_list -> frame_get df c = Return col ->
                     frame_get df' c = Return (min_max_scaled col)) /\
      (forall c, ~ In c columns_list -> frame_get df' c = frame_get df c).
Proof.
  induction columns_list as [|column cs IH]; intros self df Hnd Hdf Hcols.
  - exists df. simpl. repeat split; auto. intros c col [].
  - destruct (Hcols column (or_introl eq_refl)) as [col Hcol].
    inversion Hnd as [|? ? Hnotin Hnd']; subst.
    set (df1 := frame_set df column (min_max_scaled col)).
    set (self1 := set_normal_data (set_processed_data self df1) df1).
    assert (Hstep : normalizing_values (column :: cs) self
                    = normalizing_values cs self1).
    { unfold normalizing_values. simpl. unfold mbind at 1.
      rewrite (normalize_column_spec self df column col Hdf Hcol). reflexivity. }
    assert (Hother : forall c, c <> column -> frame_get df1 c = frame_get df c).
    { intros c Hc. apply frame_get_set_other. congruence. }
    destruct (IH self1 df1 Hnd' eq_refl) as (df' & Hret & Hproc & Hnorm & Hin & Hout).
    { intros c Hc. rewrite Hother by (intros ->; contradiction).
      apply Hcols. now right. }
    exists df'. rewrite Hstep. repeat split.
    + exact Hret.
    + exact Hproc.
    + rewrite Hnorm. destruct cs; [|reflexivity].
      simpl in Hproc. simpl. congruence.
    + intros c col' [<-|Hc] Hget.
      * rewrite Hout by assumption. unfold df1.
        rewrite frame_get_set_same. congruence.
      * apply Hin; [assumption|].
        rewrite Hother by (intros ->; contradiction). exact Hget.
    + intros c Hc. rewrite Hout by (intros ?; apply Hc; now right).
      apply Hother. intros ->. apply Hc. now left.
Qed.

Lemma nth_error_min_max_scaled (col : series) (k : nat) (v : float) :
  nth_error col k = Some v ->
  nth_error (min_max_scaled col) k
  = Some ((v - series_min col)
          / series_max (series_sub col (series_min col)))%float.
Proof.
  intros H. unfold min_max_scaled, series_sub.
  rewrite map_map, nth_error_map, H. reflexivity.
Qed.

(** The prototype's loop over distinct columns that the table has. *)
Lemma indexing_normalizing_values_spec (columns_list : list string) :
  forall avg_data : frame,
    NoDup columns_list ->
    (forall c, In c columns_list -> exists col, frame_get avg_data c = Return col) ->
    exists normal_data,
      Indexing.normalizing_values avg_data columns_list = Return normal_data /\
      (forall c col, In c columns_list -> frame_get avg_data c = Return col ->
                     frame_get normal_data c = Return (prototype_normalized col)) /\
      (forall c, ~ In c columns_list ->
                 frame_get normal_data c = frame_get avg_data c).
Proof.
  induction columns_list as [|column cs IH]; intros df Hnd Hcols.
  - exists df. simpl. repeat split; auto. intros c col [].
  - destruct (Hcols column (or_introl eq_refl)) as [col Hcol].
    inversion Hnd as [|? ? Hnotin Hnd']; subst.
    set (df1 := frame_set df column (prototype_normalized col)).
    assert (Hstep : Indexing.normalizing_values df (column :: cs)
                    = Indexing.normalizing_values df1 cs).
    { simpl. rewrite Hcol. simpl. unfold df1, prototype_normalized, series_sub.
      rewrite map_map. reflexivity. }
    assert (Hother : forall c, c <> column -> frame_get df1 c = frame_get df c).
    { intros c Hc. apply frame_get_set_other. congruence. }
    destruct (IH df1 Hnd') as (df' & Hret & Hin & Hout).
    { intros c Hc. rewrite Hother by (intros ->; contradiction).
      apply Hcols. now right. }
    exists df'. rewrite Hstep. repeat split.
    + exact Hret.
    + intros c col' [<-|Hc] Hget.
      * rewrite Hout by assumption. unfold df1.
        rewrite frame_get_set_same. congruence.
      * apply Hin; [assumption|].
        rewrite Hother by (intros ->; contradiction). exact Hget.
    + intros c Hc. rewrite Hout by (intros ?; apply Hc; now right).
      apply Hother. intros ->. apply Hc. now left.
Qed.

Lemma COLUMNS_LIST_NoDup : NoDup COLUMNS_LIST.
Proof.
  unfold COLUMNS_LIST.
  repeat constructor; simpl; intros H;
    repeat (destruct H as [H|H]; try discriminate H); auto.
Qed.

(** C2 as stated fails on the pipeline: the GSR column [1, 2, 3] has the
    nonzero maximum 3, the claim maps it to [(v - 1) / 3], and
    [normalizing_values] stores [0, 0.5, 1]: it divides by 2, the maximum
    of the column after the minimum was subtracted. *)
Lemma normalizing_values_divides_by_range :
  series_max [1; 2; 3]%float = 3%float /\
  frame_get a_processed_table "GSR" = Return [1; 2; 3]%float /\
  fst (normalizing_values COLUMNS_LIST a_processed_object) = Return tt /\
  (df <- attribute (processed_data
                      (snd (normalizing_values COLUMNS_LIST a_processed_object))) ;;
   frame_get df "GSR") = Return [0; 0.5; 1]%float /\
  spec_normalized [1; 2; 3]%float <> [0; 0.5; 1]%float.
Proof.
  repeat split; try (vm_compute; reflexivity).
  intros E. apply (f_equal (fun l => nth 1 l 0%float)) in E.
  vm_compute in E. revert E. apply float_neq; vm_compute; reflexivity.
Qed.

(** C2 (amended).  For every column (of ECG, GSR and RESP) of the
    assembled table whose maximum is nonzero and whose values are not all
    equal (the maximum [m] of the column minus its minimum is nonzero),
    [normalizing_values] of the pipeline maps every value [v] of the
    column to [(v - min) / m], where [min] is the minimum of the original
    column and the divisor [m] is the maximum of the column after [min]
    was subtracted (so [max - min], not the original maximum); the
    normalised table is also stored as [normal_data], and for a table all
    of whose three columns are such the method returns.  The prototype
    [Indexing.normalizing_values] maps [v] to [(v - min) / max] with the
    original maximum. *)
Theorem normalizing_values_formula (self : OfflineAnalysisANS) (df : frame) :
  processed_data self = Some df ->
  (forall c, In c COLUMNS_LIST -> exists col, frame_get df c = Return col) ->
  exists df' proto,
    processed_data (snd (normalizing_values COLUMNS_LIST self)) = Some df' /\
    normal_data (snd (normalizing_values COLUMNS_LIST self)) = Some df' /\
    Indexing.normalizing_values df COLUMNS_LIST = Return proto /\
    ((forall c col, In c COLUMNS_LIST -> frame_get df c = Return col ->
        (series_max col =? 0)%float = false /\
        (series_max (series_sub col (series_min col)) =? 0)%float = false) ->
     fst (normalizing_values COLUMNS_LIST self) = Return tt) /\
    forall c col k v,
      In c COLUMNS_LIST -> frame_get df c = Return col ->
      (series_max col =? 0)%float = false ->
      (series_max (series_sub col (series_min col)) =? 0)%float = false ->
      nth_error col k = Some v ->
      (exists col', frame_get df' c = Return col' /\
         nth_error col' k
         = Some ((v - series_min col)
                 / series_max (series_sub col (series_min col)))%float) /\
      (exists col', frame_get proto c = Return col' /\
         nth_error col' k
         = Some ((v - Indexing.series_min col) / Indexing.series_max col)%float).
Proof.
  intros Hdf Hcols.
  destruct (normalizing_values_spec COLUMNS_LIST self df COLUMNS_LIST_NoDup Hdf Hcols)
    as (df' & Hret & Hproc & Hnorm & Hin & _).
  destruct (indexing_normalizing_values_spec COLUMNS_LIST df COLUMNS_LIST_NoDup Hcols)
    as (proto & Hproto & Hpin & _).
  exists df', proto. do 3 (split; [assumption|]).
  split; [intros _; exact Hret|].
  intros c col k v Hc Hget _ _ Hv. split.
  - exists (min_max_scaled col). split; [now apply Hin|].
    now apply nth_error_min_max_scaled.
  - exists (prototype_normalized col). split; [now apply Hpin|].
    unfold prototype_normalized. rewrite nth_error_map, Hv. reflexivity.
Qed.

Lemma normalizing_values_formula_witness :
  exists col',
    (df' <- attribute (processed_data
                         (snd (normalizing_values COLUMNS_LIST a_processed_object))) ;;
     frame_get df' "GSR") = Return col' /\
    nth_error col' 1 = Some ((2 - 1) / 2)%float.
Proof.
  destruct (normalizing_values_formula a_processed_object a_processed_table eq_refl)
    as (df' & proto & Hproc & _ & _ & _ & Hcells).
  - intros c Hc. simpl in Hc.
    destruct Hc as [<-|[<-|[<-|[]]]]; eexists; reflexivity.
  - destruct (Hcells "GSR"%string [1; 2; 3]%float 1%nat 2%float) as [(col' & Hget & Hk) _].
    + simpl. auto.
    + reflexivity.
    + vm_compute. reflexivity.
    + vm_compute. reflexivity.
    + reflexivity.
    + exists col'. split; [rewrite Hproc; exact Hget|].
      rewrite Hk. vm_compute. reflexivity.
Defined.

(** C5 as stated fails: the ECG column [-2, -1, 0] has maximum exactly 0;
    the [try] of [normalizing_values] runs to its end, so the [except]
    branch with the add-1 fallback is not entered, and the column stored,
    [0, 0.5, 1], is not the fallback's [0, 1, 2]. *)
Lemma normalizing_values_zero_max_no_fallback :
  series_max ZERO_MAX_COLUMN = 0%float /\
  frame_get a_processed_table "ECG" = Return ZERO_MAX_COLUMN /\
  fst (normalize_try "ECG" a_processed_object) = Return tt /\
  (df <- attribute (processed_data
                      (snd (normalizing_values COLUMNS_LIST a_processed_object))) ;;
   frame_get df "ECG") = Return [0; 0.5; 1]%float /\
  spec_fallback ZERO_MAX_COLUMN = [0; 1; 2]%float /\
  spec_fallback ZERO_MAX_COLUMN <> [0; 0.5; 1]%float.
Proof.
  repeat split; try (vm_compute; reflexivity).
  intros E. apply (f_equal (fun l => nth 1 l 0%float)) in E.
  vm_compute in E. revert E. apply float_neq; vm_compute; reflexivity.
Qed.

(** C5 (amended).  For every column whose maximum is exactly 0 and whose
    values are not all equal (the maximum [m] of the column minus its
    minimum is not 0), the normalisation of that column does not raise and
    does not take the add-1 fallback: the [try] runs to its end and every
    value [v] becomes [(v - min) / m], as for any other column. *)
Theorem normalizing_zero_max_column (self : OfflineAnalysisANS) (df : frame)
    (column : string) (col : series) :
  processed_data self = Some df -> frame_get df column = Return col ->
  (series_max col =? 0)%float = true ->
  (series_max (series_sub col (series_min col)) =? 0)%float = false ->
  fst (normalize_try column self) = Return tt /\
  fst (normalize_column column self) = Return tt /\
  exists col',
    (df' <- attribute (processed_data (snd (normalize_column column self))) ;;
     frame_get df' column) = Return col' /\
    forall k v, nth_error col k = Some v ->
      nth_error col' k
      = Some ((v - series_min col)
              / series_max (series_sub col (series_min col)))%float.
Proof.
  intros Hdf Hcol _ _.
  rewrite (normalize_try_spec self df column col Hdf Hcol).
  rewrite (normalize_column_spec self df column col Hdf Hcol).
  split; [reflexivity|]. split; [reflexivity|].
  exists (min_max_scaled col). split.
  - simpl. apply frame_get_set_same.
  - intros k v. apply nth_error_min_max_scaled.
Qed.

Lemma normalizing_zero_max_column_witness :
  fst (normalize_column "ECG" a_processed_object) = Return tt.
Proof.
  refine (proj1 (proj2 (normalizing_zero_max_column a_processed_object
                          a_processed_table "ECG" ZERO_MAX_COLUMN
                          eq_refl eq_refl _ _))).
  - vm_compute. reflexivity.
  - vm_compute. reflexivity.
Defined.

(** ** Scoring *)

Lemma nth_error_series_plus (a b : series) (k : nat) (x y : float) :
  nth_error a k = Some x -> nth_error b k = Some y ->
  nth_error (series_plus a b) k = Some (x + y)%float.
Proof.
  unfold series_plus. revert b k.
  induction a as [|x' a IH]; intros [|y' b] [|k]; simpl; try discriminate.
  - congruence.
  - apply IH.
Qed.

Lemma nth_error_series_mul (s : series) (w : pyval) (f : float) (k : nat) (x : float) :
  scalar_operand w = Return f -> nth_error s k = Some x ->
  exists p, series_mul s w = Return p /\ nth_error p k = Some (x * f)%float.
Proof.
  intros Hw Hx. unfold series_mul. rewrite Hw. simpl.
  eexists. split; [reflexivity|]. now rewrite nth_error_map, Hx.
Qed.

(** C8.  For every table of normalised values that has the ECG, GSR and
    RESP columns and every held weights dict whose three weights are
    numbers, [score_adding] returns; the Stress_Score it adds is, at each
    window [k], [ecg[k] * w_ECG + gsr[k] * w_GSR + resp[k] * w_RESP] in
    float64 arithmetic, every other column of the table is unchanged, and
    the scored table is stored as [normal_data] and as [scored_data]. *)
Theorem score_adding_formula (self : OfflineAnalysisANS) (table : frame)
    (ecg gsr resp : series) (v_ecg v_gsr v_resp : pyval) (w_ecg w_gsr w_resp : float) :
  normal_data self = Some table ->
  frame_get table "ECG" = Return ecg ->
  frame_get table "GSR" = Return gsr ->
  frame_get table "RESP" = Return resp ->
  weight (weights self) "ECG" = Return v_ecg ->
  weight (weights self) "GSR" = Return v_gsr ->
  weight (weights self) "RESP" = Return v_resp ->
  scalar_operand v_ecg = Return w_ecg ->
  scalar_operand v_gsr = Return w_gsr ->
  scalar_operand v_resp = Return w_resp ->
  exists scored score,
    score_adding self
    = (Return tt, set_scored_data (set_normal_data self scored) scored) /\
    frame_get scored "Stress_Score" = Return score /\
    (forall k e g r,
       nth_error ecg k = Some e -> nth_error gsr k = Some g ->
       nth_error resp k = Some r ->
       nth_error score k = Some (e * w_ecg + g * w_gsr + r * w_resp)%float) /\
    (forall column, column <> "Stress_Score"%string ->
       frame_get scored column = frame_get table column).
Proof.
  intros Htable Hecg Hgsr Hresp Hve Hvg Hvr Hwe Hwg Hwr.
  unfold score_adding. rewrite Htable. simpl.
  rewrite Hecg, Hve. simpl. unfold series_mul at 1. rewrite Hwe. simpl.
  rewrite Hgsr, Hvg. simpl. unfold series_mul at 1. rewrite Hwg. simpl.
  rewrite Hresp, Hvr. simpl. unfold series_mul at 1. rewrite Hwr. simpl.
  eexists. eexists. split; [reflexivity|].
  split; [apply frame_get_set_same|]. split.
  - intros k e g r He Hg Hr.
    apply nth_error_series_plus; [apply nth_error_series_plus|];
      rewrite nth_error_map; [rewrite He|rewrite Hg|rewrite Hr]; reflexivity.
  - intros column Hc. apply frame_get_set_other. congruence.
Qed.

Lemma score_adding_formula_witness :
  exists scored,
    scored_data (snd (score_adding a_normal_object)) = Some scored.
Proof.
  destruct (score_adding_formula a_normal_object a_normal_table
              [0.2]%float [0.8]%float [0.4]%float
              (PyFloat 0.5) (PyFloat 0.5) (PyFloat 0) 0.5 0.5 0
              eq_refl eq_refl eq_refl eq_refl eq_refl eq_refl eq_refl
              eq_refl eq_refl eq_refl)
    as (scored & score & Hrun & _).
  exists scored. rewrite Hrun. reflexivity.
Defined.

(** The scenario of the specification: the weights 0.5, 0.5 and 0 on the
    normalised values 0.2, 0.8 and 0.4 give the score 0.5. *)
Example score_adding_half_half :
  (scored <- attribute (scored_data (snd (score_adding a_normal_object))) ;;
   frame_get scored "Stress_Score") = Return [0.5%float].
Proof. vm_compute. reflexivity. Qed.

(** ** The groups of the GSR mean *)

Lemma combine_app_same_length {A B : Type} (a a' : list A) (b b' : list B) :
  List.length a = List.length b ->
  combine (a ++ a') (b ++ b') = combine a b ++ combine a' b'.
Proof.
  revert b. induction a as [|x a IH]; intros [|y b] H; simpl in *;
    try discriminate; [reflexivity|].
  f_equal. apply IH. congruence.
Qed.

Lemma group_insert_skip (key position : Z) (front rest : list (Z * list Z)) :
  (forall g, In g front -> fst g < key) ->
  group_insert key position (front ++ rest)
  = front ++ group_insert key position rest.
Proof.
  induction front as [|[k members] front IH]; intros Hlt; [reflexivity|].
  simpl. pose proof (Hlt (k, members) (or_introl eq_refl)) as Hk. simpl in Hk.
  destruct (Z.ltb_spec key k); [lia|].
  destruct (Z.eqb_spec key k); [lia|].
  rewrite IH; [reflexivity|]. intros g Hg. apply Hlt. now right.
Qed.

Lemma arange_snoc (a b : Z) : a <= b -> arange a (b + 1) = arange a b ++ [b].
Proof.
  intros H. unfold arange.
  replace (Z.to_nat (b + 1 - a)) with (S (Z.to_nat (b - a))) by lia.
  rewrite seq_S, map_app. simpl. do 2 f_equal. lia.
Qed.

Lemma groupby_snoc (keys : list Z) (key : Z) :
  groupby (keys ++ [key]) = group_insert key (len keys) (groupby keys).
Proof.
  unfold groupby.
  assert (Hlen : len (keys ++ [key]) = len keys + 1)
    by (unfold len; rewrite length_app; simpl; lia).
  rewrite Hlen, arange_snoc by (unfold len; lia).
  rewrite combine_app_same_length
    by (unfold arange, len; rewrite length_map, length_seq; lia).
  rewrite fold_left_app. simpl. reflexivity.
Qed.

(** The keys [i // n] of [L] samples fall into the windows
    [[k * n, min((k + 1) * n, L))], [k] below [ceil(L / n)]. *)
Lemma groupby_windows (n : Z) (L : nat) :
  0 < n ->
  groupby (map (fun i => i / n) (arange 0 (Z.of_nat L)))
  = map (fun k => (k, spec_chunk n (Z.of_nat L) k))
        (py_range (- ((- Z.of_nat L) / n))).
Proof.
  intros Hn. induction L as [|L IH]; [reflexivity|].
  replace (Z.of_nat (S L)) with (Z.of_nat L + 1) by lia.
  rewrite arange_snoc, map_app by lia. simpl map at 2.
  rewrite groupby_snoc, IH.
  replace (len (map (fun i => i / n) (arange 0 (Z.of_nat L)))) with (Z.of_nat L)
    by (unfold len, arange; rewrite !length_map, length_seq; lia).
  set (l := Z.of_nat L). set (q := l / n).
  assert (Hl : 0 <= l) by (unfold l; lia).
  pose proof (Z.div_mod l n ltac:(lia)) as Hdm.
  pose proof (Z.mod_pos_bound l n Hn) as Hr. fold q in Hdm.
  assert (Hq : 0 <= q) by (apply Z.div_pos; lia).
  assert (Hfull : forall k, In k (py_range q) ->
            (k, spec_chunk n (l + 1) k) = (k, spec_chunk n l k)).
  { intros k Hk. apply in_py_range in Hk. unfold spec_chunk.
    assert ((k + 1) * n <= l) by nia.
    do 2 f_equal. lia. }
  assert (Hfront : forall g, In g (map (fun k => (k, spec_chunk n l k)) (py_range q)) ->
            fst g < q).
  { intros g Hg. apply in_map_iff in Hg. destruct Hg as (k & <- & Hk).
    apply in_py_range in Hk. simpl. lia. }
  destruct (Z.eq_dec (l mod n) 0) as [Hz|Hnz].
  - (* a new window opens *)
    assert (Hc : - (- l / n) = q).
    { replace (- l) with ((- q) * n) by lia. rewrite Z.div_mul by lia. lia. }
    assert (Hc' : - (- (l + 1) / n) = q + 1).
    { replace (- (l + 1)) with ((n - 1) + (- (q + 1)) * n) by lia.
      rewrite Z.div_add by lia. rewrite Z.div_small by lia. lia. }
    rewrite Hc, Hc'.
    replace (q + 1) with (Z.of_nat (S (Z.to_nat q))) by lia.
    rewrite py_range_S, map_app, Z2Nat.id by lia. simpl map at 2.
    rewrite (map_ext_in _ _ _ Hfull).
    rewrite <- (app_nil_r (map _ (py_range q))) at 1.
    rewrite group_insert_skip by exact Hfront. simpl. unfold spec_chunk.
    do 3 f_equal. replace (q * n) with l by lia.
    replace (Z.min ((q + 1) * n) (l + 1)) with (l + 1) by nia.
    unfold arange. replace (l + 1 - l) with 1 by lia. simpl. f_equal. lia.
  - (* the last window grows *)
    assert (Hc : - (- l / n) = q + 1).
    { replace (- l) with ((n - l mod n) + (- (q + 1)) * n) by lia.
      rewrite Z.div_add by lia. rewrite Z.div_small by lia. lia. }
    assert (Hc' : - (- (l + 1) / n) = q + 1).
    { replace (- (l + 1)) with ((n - l mod n - 1) + (- (q + 1)) * n) by lia.
      rewrite Z.div_add by lia. rewrite Z.div_small by lia. lia. }
    rewrite Hc, Hc'.
    replace (q + 1) with (Z.of_nat (S (Z.to_nat q))) by lia.
    rewrite py_range_S, !map_app, Z2Nat.id by lia. simpl map.
    rewrite (map_ext_in _ _ _ Hfull).
    rewrite group_insert_skip by exact Hfront. simpl. unfold spec_chunk.
    destruct (Z.ltb_spec q q); [lia|]. rewrite Z.eqb_refl.
    do 3 f_equal.
    replace (Z.min ((q + 1) * n) (l + 1)) with (l + 1) by nia.
    replace (Z.min ((q + 1) * n) l) with l by nia.
    symmetry. apply arange_snoc. nia.
Qed.

(** The GSR grouping does what C3 says: [ceil(L / n_samples)] groups,
    group [k] the samples [[k * n_samples, min((k + 1) * n_samples, L))]. *)
Lemma gsr_groups_partition (self : OfflineAnalysisANS) (G : series) :
  gsr self = Some G -> 0 < n_samples self ->
  gsr_groups self
  = Return (map (fun k => (k, spec_chunk (n_samples self) (len G) k))
                (py_range (exact_ceil (len G) (n_samples self)))).
Proof.
  intros HG Hn. unfold gsr_groups, exact_ceil. rewrite HG. simpl.
  unfold len. rewrite groupby_windows by assumption. reflexivity.
Qed.

(** Where a chunk of [heart_rate] ends within the data it is the chunk of
    the specification. *)
Lemma data_chunk_within (E : series) (n N k : Z) :
  In k (py_range N) -> (k + 1) * n <= len E ->
  data_chunk E n N k = spec_chunk n (len E) k.
Proof.
  intros Hk Hend. apply in_py_range in Hk. unfold data_chunk, spec_chunk.
  destruct (Z.eqb_spec k N); [lia|]. simpl. f_equal. lia.
Qed.

(** C3 at a failing input.  Three ECG samples in windows of two make
    [ceil(3/2) = 2] chunks.  The claim gives chunk 1 the samples [[2, 3)];
    [heart_rate] gives it the labels 2 and 3, the second past the end of
    the data, and cannot extract it.  The GSR grouping of the same object
    does cover [[0, 2)] and [[2, 3)]. *)
Theorem heart_rate_chunk_past_the_end :
  ceil_div (len SHORT_ECG) (n_samples a_short_recording) = Return 2 /\
  spec_chunk (n_samples a_short_recording) (len SHORT_ECG) 1 = [2] /\
  data_chunk SHORT_ECG (n_samples a_short_recording) 2 1 = [2; 3] /\
  getitem_labels SHORT_ECG (data_chunk SHORT_ECG (n_samples a_short_recording) 2 1)
  = Raise KeyError /\
  gsr_groups a_short_recording = Return [(0, [0; 1]); (1, [2])].
Proof. repeat split; vm_compute; reflexivity. Qed.

(** * Further properties *)

(** ** Which weights are accepted *)

(** [check_weights_input] accepts exactly the dicts whose items are, in
    this order, ECG, GSR and RESP, whose three values are ints or floats,
    whose [sum] is 1 and none of which is below 0; every other value makes
    it raise. *)
Theorem validate_weights_accepts_iff (w : pyval) :
  let accepted :=
    exists e g r ne ng nr s,
      w = PyDict [(PyStr "ECG", e); (PyStr "GSR", g); (PyStr "RESP", r)] /\
      as_num e = Some ne /\ as_num g = Some ng /\ as_num r = Some nr /\
      py_sum [e; g; r] = Return s /\ ne_one s = false /\
      ge_zero ne = true /\ ge_zero ng = true /\ ge_zero nr = true in
  (validate_weights w = Return true <-> accepted) /\
  (~ accepted -> exists e, validate_weights w = Raise e).
Proof.
  intros accepted.
  assert (Hiff : validate_weights w = Return true <-> accepted).
  { unfold accepted. split.
    - unfold validate_weights. destruct w; try discriminate.
      destruct (negb (Nat.eqb (List.length items) 3)); [discriminate|].
      destruct (keys_equal items WEIGHT_KEYS) eqn:Hk; simpl; [|discriminate].
      destruct (keys_equal_weight_keys _ Hk) as (e & g & r & ->). simpl.
      destruct (as_num e) as [ne|] eqn:He; [|discriminate].
      destruct (as_num g) as [ng|] eqn:Hg; [|discriminate].
      destruct (as_num r) as [nr|] eqn:Hr; [|discriminate].
      destruct (py_sum [e; g; r]) as [s|] eqn:Hs; simpl; [|discriminate].
      destruct (ne_one s) eqn:Hone; [discriminate|].
      destruct (ge_zero ne && ge_zero ng && ge_zero nr) eqn:Hge; [|discriminate].
      intros _. apply andb_prop in Hge. destruct Hge as [Hge Hnr].
      apply andb_prop in Hge. destruct Hge as [Hne Hng].
      exists e, g, r, ne, ng, nr, s. repeat split; auto.
    - intros (e & g & r & ne & ng & nr & s & -> & He & Hg & Hr & Hs & Hone
              & Hne & Hng & Hnr).
      unfold validate_weights. simpl. rewrite He, Hg, Hr. simpl in Hs |- *.
      unfold py_sum in Hs. simpl in Hs. rewrite He, Hg, Hr in Hs.
      unfold py_sum. simpl. rewrite He, Hg, Hr, Hs. simpl.
      rewrite Hone, Hne, Hng, Hnr. reflexivity. }
  split; [exact Hiff|].
  intros Hno. destruct (validate_weights w) as [b|e] eqn:Hv; [|now exists e].
  exfalso. apply Hno, Hiff. f_equal.
  eapply validate_weights_returns_true; eauto.
Qed.

(** [change_weights] always leaves the candidate in the object, accepted
    or not: afterwards the held weights are [new_weights] and the window
    size and the tables are untouched.  It returns, having printed the
    validity message, exactly when the candidate passes the check;
    otherwise it raises what the check raises and prints nothing. *)
Theorem change_weights_always_installs (self : OfflineAnalysisANS) (new_weights : pyval) :
  let after := snd (change_weights new_weights self) in
  weights after = new_weights /\
  n_samples after = n_samples self /\
  processed_data after = processed_data self /\
  normal_data after = normal_data self /\
  scored_data after = scored_data self /\
  ((validate_weights new_weights = Return true /\
    fst (change_weights new_weights self) = Return tt /\
    stdout after = stdout self ++ [WeightsAreValid new_weights])
   \/
   (exists e, validate_weights new_weights = Raise e /\
              fst (change_weights new_weights self) = Raise e /\
              stdout after = stdout self)).
Proof.
  destruct (validate_weights new_weights) as [b|e] eqn:Hv.
  - assert (b = true) as -> by (eapply validate_weights_returns_true; eauto).
    assert (Hrun : change_weights new_weights self
                   = (Return tt,
                      print (set_weights self new_weights)
                            (WeightsAreValid new_weights))).
    { unfold change_weights, check_weights_input, mbind, assign_weights, say, mret.
      cbn [weights set_weights]. rewrite Hv. reflexivity. }
    rewrite Hrun. simpl. repeat (split; [reflexivity|]). left. auto.
  - rewrite (change_weights_invalid self new_weights e Hv). simpl.
    repeat (split; [reflexivity|]). right. exists e. auto.
Qed.

(** ** What construction builds *)

(** Construction succeeds exactly when the path is a string or path that
    exists, the rate and the window are ints and the weights pass the
    check; the object then holds the arguments, has
    [n_samples = time_window * sample_rate] (whatever their signs), has no
    table yet, and one validity message was printed. *)
Theorem init_builds_iff (path_exists : string -> result bool)
    (data_path sample_rate time_window w : pyval) (self : OfflineAnalysisANS) :
  __init__ path_exists data_path sample_rate time_window w = Return self <->
  isinstance_path_or_str data_path = true /\
  path_exists (path_string data_path) = Return true /\
  validate_weights w = Return true /\
  exists rate window,
    int_value sample_rate = Return rate /\
    int_value time_window = Return window /\
    self = mkANS data_path sample_rate time_window w (window * rate)
                 None None None None None None [WeightsAreValid w].
Proof.
  unfold __init__, check_weights_input, mbind, say, mret. cbn [weights].
  destruct (isinstance_path_or_str data_path); simpl;
    [|split; [discriminate|intros (H & _); discriminate]].
  destruct (path_exists (path_string data_path)) as [[|]|e0]; simpl;
    try (split; [discriminate|intros (_ & H & _); discriminate]).
  destruct sample_rate as [|b|z|f|s|p|d]; simpl;
    try (split; [discriminate|intros (_ & _ & _ & ? & ? & H & _); discriminate]);
    (destruct time_window as [|b'|z'|f'|s'|p'|d']; simpl;
     try (split; [discriminate|intros (_ & _ & _ & ? & ? & _ & H & _); discriminate]));
    (destruct (validate_weights w) as [ok|e] eqn:Hv; simpl;
     [ assert (ok = true) as -> by (eapply validate_weights_returns_true; eauto);
       split;
       [ intros H; inversion H; subst; repeat split; eauto
       | intros (_ & _ & _ & rate & window & Hr & Hw & ->);
         inversion Hr; inversion Hw; subst; reflexivity ]
     | split; [discriminate|intros (_ & _ & H & _); discriminate] ]).
Qed.

(** ** More on heart rates *)

(** Without an ECG series [heart_rate] raises [AttributeError]; with a
    window size of 0 it raises [ZeroDivisionError]; with a negative window
    size and fewer than 2^53 samples it returns the empty array for a
    series shorter than the window and raises [ValueError] (from
    [np.zeros] of a negative count) otherwise. *)
Theorem heart_rate_degenerate_windows (hp_process : series -> pyval -> result float)
    (self : OfflineAnalysisANS) :
  (ecg self = None -> heart_rate hp_process self = Raise AttributeError) /\
  (forall E, ecg self = Some E -> n_samples self = 0 ->
     heart_rate hp_process self = Raise ZeroDivisionError) /\
  (forall E, ecg self = Some E -> n_samples self < 0 -> len E < 2 ^ 53 ->
     heart_rate hp_process self
     = if len E <? - n_samples self then Return [] else Raise ValueError).
Proof.
  unfold heart_rate. repeat split.
  - intros ->. reflexivity.
  - intros E -> ->. reflexivity.
  - intros E -> Hn HL. simpl.
    assert (HL0 : 0 <= len E) by (unfold len; lia).
    assert (Hpow : 0 < 2 ^ 1075) by (apply Z.pow_pos_nonneg; lia).
    rewrite ceil_div_exact by lia. unfold exact_ceil. simpl.
    set (n := n_samples self) in *.
    pose proof (Z.div_mod (- len E) n ltac:(lia)) as Hdm.
    pose proof (Z.mod_neg_bound (- len E) n Hn) as Hr.
    unfold np_zeros.
    destruct (Z.ltb_spec (len E) (- n)).
    + assert (Hq : - len E / n = 0) by nia.
      rewrite Hq. reflexivity.
    + assert (Hq : 1 <= - len E / n) by nia.
      destruct (Z.ltb_spec (- (- len E / n)) 0); [reflexivity|lia].
Qed.

Lemma heart_rate_degenerate_windows_witness :
  heart_rate (fun _ _ => Return 72%float)
    (mkANS (PyStr "Data.csv") (PyInt 0) (PyInt 10) DEFAULT_WEIGHTS 0
           None (Some SHORT_ECG) None None None None [])
  = Raise ZeroDivisionError.
Proof.
  exact (proj1 (proj2 (heart_rate_degenerate_windows (fun _ _ => Return 72%float)
                         (mkANS (PyStr "Data.csv") (PyInt 0) (PyInt 10)
                                DEFAULT_WEIGHTS 0
                                None (Some SHORT_ECG) None None None None [])))
               SHORT_ECG eq_refl eq_refl).
Defined.

(** For a positive window size below 2^1075 and fewer than 2^53 samples
    [heart_rate] returns one value per window, [ceil(len / n_samples)] of
    them (none for an empty series), and every value is NaN or a bpm
    below 220. *)
Theorem heart_rate_one_plausible_value_per_window
    (hp_process : series -> pyval -> result float)
    (self : OfflineAnalysisANS) (E : series) :
  ecg self = Some E -> 0 < n_samples self < 2 ^ 1075 -> len E < 2 ^ 53 ->
  exists out,
    heart_rate hp_process self = Return out /\
    len out = exact_ceil (len E) (n_samples self) /\
    (len out - 1) * n_samples self < len E <= len out * n_samples self /\
    (E = [] -> out = []) /\
    forall k, 0 <= k < len out ->
      array_get out k = nan \/ (array_get out k <? 220)%float = true.
Proof.
  intros HE Hn HL.
  destruct (heart_rate_cells hp_process self E HE Hn HL)
    as (N & out & _ & HN & Hb & Hout & Hlen & Hcells).
  exists out. rewrite Hlen. repeat split; try tauto.
  - intros ->. unfold len in *. simpl in Hb.
    destruct out; [reflexivity|]. simpl in Hlen. nia.
  - intros k Hk. eapply heart_rate_cells_plausible; eauto.
Qed.

Lemma heart_rate_one_plausible_value_per_window_witness :
  exists out,
    heart_rate (fun _ _ => Return 72%float) a_short_recording = Return out /\
    len out = 2.
Proof.
  destruct (heart_rate_one_plausible_value_per_window (fun _ _ => Return 72%float)
              a_short_recording SHORT_ECG eq_refl) as (out & H & Hlen & _).
  - vm_compute. split; reflexivity.
  - vm_compute. reflexivity.
  - exists out. split; [exact H|]. rewrite Hlen. vm_compute. reflexivity.
Defined.

Lemma skipn_cons_nth {A : Type} (s : list A) (a : nat) (d : A) :
  (a < List.length s)%nat -> skipn a s = nth a s d :: skipn (S a) s.
Proof.
  revert a. induction s as [|x s IH]; intros [|a] H; simpl in *; try lia.
  - reflexivity.
  - apply IH. lia.
Qed.

(** Labels that lie within the data select the samples at these
    positions. *)
Lemma getitem_labels_arange (s : series) (m a : nat) :
  (a + m <= List.length s)%nat ->
  getitem_labels s (arange (Z.of_nat a) (Z.of_nat (a + m)))
  = Return (firstn m (skipn a s)).
Proof.
  unfold arange. replace (Z.to_nat (Z.of_nat (a + m) - Z.of_nat a)) with m by lia.
  revert a. induction m as [|m IH]; intros a H; [reflexivity|].
  rewrite <- cons_seq, <- seq_shift, map_cons, map_map.
  cbn [getitem_labels]. cbv beta.
  replace (Z.of_nat a + Z.of_nat 0) with (Z.of_nat a) by lia.
  unfold getitem_label at 1.
  destruct (Z.leb_spec 0 (Z.of_nat a)); [|lia].
  destruct (Z.ltb_spec (Z.of_nat a) (len s)); [|unfold len in *; lia].
  cbn [andb bind]. rewrite Nat2Z.id.
  rewrite (map_ext _ (fun i => Z.of_nat (S a) + Z.of_nat i)) by (intros; lia).
  rewrite IH by lia. cbn [bind firstn].
  rewrite (skipn_cons_nth s a nan) by lia. reflexivity.
Qed.

(** A window that lies within the data (of fewer than 2^53 samples) and
    for which the detector answers a bpm below 220 gets that bpm: the
    detector is given exactly the samples
    [k * n_samples .. (k + 1) * n_samples - 1]. *)
Theorem heart_rate_accepts_plausible_bpm
    (hp_process : series -> pyval -> result float)
    (self : OfflineAnalysisANS) (E : series) (out : list float) (k : Z) (bpm : float) :
  ecg self = Some E -> 0 < n_samples self -> len E < 2 ^ 53 ->
  heart_rate hp_process self = Return out ->
  0 <= k -> (k + 1) * n_samples self <= len E ->
  hp_process (firstn (Z.to_nat (n_samples self))
                     (skipn (Z.to_nat (k * n_samples self)) E))
             (sample_rate self) = Return bpm ->
  (bpm <? 220)%float = true ->
  k < len out /\ array_get out k = bpm.
Proof.
  intros HE Hn HL Hout Hk Hend Hhp Hlt.
  destruct (heart_rate_cells_of_result hp_process self E out HE Hout)
    as (N & HN & Hlen & Hcells).
  assert (H53 : 2 ^ 53 < 2 ^ 1075) by (apply Z.pow_lt_mono_r; lia).
  assert (HL0 : 0 <= len E) by (unfold len; lia).
  destruct (ceil_div_pos (len E) (n_samples self) ltac:(lia) ltac:(nia))
    as (N' & HN' & _ & Hb).
  assert (N' = N) as -> by congruence.
  assert (HkN : k < N) by nia.
  split; [lia|].
  rewrite Hcells by lia.
  unfold heart_rate_try, data_chunk.
  destruct (Z.eqb_spec k N); [lia|]. simpl negb. cbv iota.
  replace (k * n_samples self) with (Z.of_nat (Z.to_nat (k * n_samples self))) at 1
    by nia.
  replace ((k + 1) * n_samples self)
    with (Z.of_nat (Z.to_nat (k * n_samples self) + Z.to_nat (n_samples self)))
    by nia.
  rewrite getitem_labels_arange by (unfold len in Hend; nia).
  simpl. rewrite Hhp. simpl. rewrite Hlt. reflexivity.
Qed.

Lemma heart_rate_accepts_plausible_bpm_witness :
  array_get [72; 72]%float 0 = 72%float.
Proof.
  refine (proj2 (heart_rate_accepts_plausible_bpm (fun _ _ => Return 72%float)
                   a_short_recording SHORT_ECG [72; 72]%float 0 72%float
                   eq_refl eq_refl _ _ _ _ eq_refl _)).
  - vm_compute. reflexivity.
  - vm_compute. reflexivity.
  - lia.
  - vm_compute. discriminate.
  - vm_compute. reflexivity.
Defined.

(** Failures carry over a whole run of windows.  For a positive window
    size below 2^1075 and fewer than 2^53 samples [heart_rate] returns its
    [ceil(len / n_samples)] values, and for each window [k]: if the [try]
    fails for every window after [j] up to [k], window [k] repeats the
    value of window [j]; if it fails for every window up to [k], window
    [k] is NaN. *)
Theorem heart_rate_carries_over_failed_run
    (hp_process : series -> pyval -> result float)
    (self : OfflineAnalysisANS) (E : series) :
  ecg self = Some E -> 0 < n_samples self < 2 ^ 1075 -> len E < 2 ^ 53 ->
  exists out,
    heart_rate hp_process self = Return out /\
    len out = exact_ceil (len E) (n_samples self) /\
    forall k, 0 <= k < len out ->
      (forall j, 0 <= j <= k ->
         (forall i, j < i <= k ->
            raises (heart_rate_try hp_process E (n_samples self) (sample_rate self)
                      (len out) i)) ->
         array_get out k = array_get out j) /\
      ((forall i, 0 <= i <= k ->
          raises (heart_rate_try hp_process E (n_samples self) (sample_rate self)
                    (len out) i)) ->
       array_get out k = nan).
Proof.
  intros HE Hn HL.
  destruct (heart_rate_cells hp_process self E HE Hn HL)
    as (N & out & _ & HN & _ & Hout & Hlen & Hcells).
  exists out. split; [exact Hout|]. split; [congruence|].
  rewrite Hlen. intros k Hk.
  assert (Hrun : forall d j, 0 <= j -> j + Z.of_nat d < N ->
            (forall i, j < i <= j + Z.of_nat d ->
               raises (heart_rate_try hp_process E (n_samples self)
                         (sample_rate self) N i)) ->
            array_get out (j + Z.of_nat d) = array_get out j).
  { induction d as [|d IH]; intros j Hj Hd Hfail.
    - f_equal. lia.
    - rewrite Hcells by lia.
      destruct (Hfail (j + Z.of_nat (S d)) ltac:(lia)) as [e ->].
      destruct (Z.eqb_spec (j + Z.of_nat (S d)) 0); [lia|].
      replace (j + Z.of_nat (S d) - 1) with (j + Z.of_nat d) by lia.
      apply IH; [lia|lia|]. intros i Hi. apply Hfail. lia. }
  split.
  - intros j Hj Hfail.
    replace k with (j + Z.of_nat (Z.to_nat (k - j))) at 1 by lia.
    apply Hrun; [lia|lia|]. intros i Hi. apply Hfail. lia.
  - intros Hfail.
    rewrite <- (Z.add_0_l k), <- (Z2Nat.id k) by lia.
    rewrite Hrun; [|lia|lia|intros i Hi; apply Hfail; lia].
    rewrite Hcells by lia.
    destruct (Hfail 0 ltac:(lia)) as [e ->]. reflexivity.
Qed.

Lemma heart_rate_carries_over_failed_run_witness :
  exists out,
    heart_rate (fun _ _ => Return 72%float) a_short_recording = Return out /\
    array_get out 1 = array_get out 0.
Proof.
  destruct (heart_rate_carries_over_failed_run (fun _ _ => Return 72%float)
              a_short_recording SHORT_ECG eq_refl) as (out & Hout & Hlen & Hrun).
  - vm_compute. split; reflexivity.
  - vm_compute. reflexivity.
  - exists out. split; [exact Hout|].
    assert (Hlen2 : len out = 2) by (rewrite Hlen; vm_compute; reflexivity).
    refine (proj1 (Hrun 1 _) 0 _ _).
    + rewrite Hlen2. lia.
    + lia.
    + intros i Hi. assert (i = 1) as -> by lia. rewrite Hlen2.
      exists KeyError. vm_compute. reflexivity.
Defined.

(** ** More on windows *)

Lemma arange_app (a b c : Z) :
  a <= b <= c -> arange a b ++ arange b c = arange a c.
Proof.
  intros H. replace c with (b + Z.of_nat (Z.to_nat (c - b))) by lia.
  induction (Z.to_nat (c - b)) as [|m IH].
  - replace (b + Z.of_nat 0) with b by lia.
    unfold arange at 2. rewrite Z.sub_diag. simpl. apply app_nil_r.
  - replace (b + Z.of_nat (S m)) with (b + Z.of_nat m + 1) by lia.
    rewrite (arange_snoc b), (arange_snoc a) by lia.
    rewrite app_assoc, IH. reflexivity.
Qed.

Lemma concat_spec_chunks (n L : Z) (m : nat) :
  0 < n -> 0 <= L -> (Z.of_nat m - 1) * n < L \/ m = 0%nat ->
  List.concat (map (fun k => spec_chunk n L k) (py_range (Z.of_nat m)))
  = arange 0 (Z.min (Z.of_nat m * n) L).
Proof.
  intros Hn HL. induction m as [|m IH]; intros Hm.
  - simpl. unfold arange. rewrite Z.min_l by lia. reflexivity.
  - assert (Z.of_nat m * n < L) by lia.
    rewrite py_range_S, map_app, concat_app. cbn [map List.concat].
    rewrite app_nil_r, IH by (destruct m; [now right|left; nia]).
    unfold spec_chunk.
    rewrite (Z.min_l (Z.of_nat m * n) L) by lia.
    replace (Z.of_nat (S m) * n) with ((Z.of_nat m + 1) * n) by lia.
    apply arange_app. lia.
Qed.

(** The groups of the GSR mean partition the recording: for a positive
    window size there are [ceil(len / n_samples)] groups, with the keys
    0, 1, 2, ... in order, group [k] holds the positions
    [[k * n_samples, min((k + 1) * n_samples, len))], none is empty, and
    one after the other they are the positions [0 .. len - 1], each once. *)
Theorem gsr_groups_cover_the_recording (self : OfflineAnalysisANS) (G : series) :
  gsr self = Some G -> 0 < n_samples self ->
  exists groups,
    gsr_groups self = Return groups /\
    (len groups - 1) * n_samples self < len G <= len groups * n_samples self /\
    map fst groups = py_range (len groups) /\
    (forall k members, In (k, members) groups ->
       members = spec_chunk (n_samples self) (len G) k /\ members <> []) /\
    List.concat (map snd groups) = arange 0 (len G).
Proof.
  intros HG Hn.
  pose proof (gsr_groups_partition self G HG Hn) as Hgroups.
  pose proof (exact_ceil_pos (len G) (n_samples self) Hn) as Hb.
  set (N := exact_ceil (len G) (n_samples self)) in *.
  assert (HL : 0 <= len G) by (unfold len; lia).
  assert (HN0 : 0 <= N) by nia.
  eexists. split; [exact Hgroups|].
  assert (Hlen : len (map (fun k => (k, spec_chunk (n_samples self) (len G) k))
                         (py_range N)) = N).
  { unfold len, py_range. rewrite !length_map, length_seq. lia. }
  rewrite Hlen. split; [exact Hb|]. split; [|split].
  - rewrite map_map. simpl. apply map_id.
  - intros k members Hin. apply in_map_iff in Hin.
    destruct Hin as (k' & Heq & Hk'). inversion Heq; subst.
    apply in_py_range in Hk'. split; [reflexivity|].
    unfold spec_chunk, arange.
    replace (Z.to_nat (Z.min ((k + 1) * n_samples self) (len G) - k * n_samples self))
      with (S (Z.to_nat (Z.min ((k + 1) * n_samples self) (len G)
                         - k * n_samples self - 1))) by nia.
    discriminate.
  - rewrite map_map. simpl.
    replace N with (Z.of_nat (Z.to_nat N)) by lia.
    rewrite concat_spec_chunks by lia.
    f_equal. lia.
Qed.

Lemma gsr_groups_cover_the_recording_witness :
  exists groups, gsr_groups a_short_recording = Return groups.
Proof.
  destruct (gsr_groups_cover_the_recording a_short_recording [5; 6; 7]%float
              eq_refl eq_refl) as (groups & H & _).
  exists groups. exact H.
Defined.

(** The TIME column for a positive window size: entry [k] is the
    timestamp of sample [k * n_samples], and there are as many entries as
    the windows of the recording without its last sample need: none for a
    recording of at most one sample, [ceil((len - 1) / n_samples)]
    otherwise. *)
Theorem time_column_marks_window_starts (self : OfflineAnalysisANS) (T : series) :
  time self = Some T -> 0 < n_samples self ->
  exists col,
    time_column self = Return col /\
    (forall k, 0 <= k < len col ->
       array_get col k = array_get T (k * n_samples self)) /\
    (len T <= 1 -> col = []) /\
    (1 <= len T ->
     (len col - 1) * n_samples self < len T - 1 <= len col * n_samples self).
Proof.
  intros HT Hn.
  destruct (time_column_entries self T HT Hn) as (col & Hcol & Hentry & Hcount).
  exists col. split; [exact Hcol|]. split; [exact Hentry|].
  assert (Hc : 0 <= len col) by (unfold len; lia).
  split.
  - intros H1. destruct col as [|c col]; [reflexivity|].
    assert (H0 : 0 < len (c :: col)) by (unfold len; simpl; lia).
    apply (Hcount 0 ltac:(lia)) in H0. lia.
  - intros H1. split.
    + destruct (Z.eq_dec (len col) 0) as [->|]; [lia|].
      apply (Hcount (len col - 1) ltac:(lia)). lia.
    + destruct (Z_lt_le_dec (len col * n_samples self) (len T - 1)) as [Hlt|]; [|lia].
      apply (Hcount (len col) Hc) in Hlt. lia.
Qed.

Lemma time_column_marks_window_starts_witness :
  exists col, time_column a_short_recording = Return col.
Proof.
  destruct (time_column_marks_window_starts a_short_recording [0; 0.5; 1]%float
              eq_refl eq_refl) as (col & H & _).
  exists col. exact H.
Defined.

(** The TIME column at the edges: without a time series it is an
    [AttributeError], with a window size of 0 a [ValueError] (a slice step
    of 0), and with a negative window size it is empty. *)
Theorem time_column_degenerate_windows (self : OfflineAnalysisANS) :
  (time self = None -> time_column self = Raise AttributeError) /\
  (forall T, time self = Some T -> n_samples self = 0 ->
     time_column self = Raise ValueError) /\
  (forall T, time self = Some T -> n_samples self < 0 ->
     time_column self = Return []).
Proof.
  unfold time_column. repeat split.
  - intros ->. reflexivity.
  - intros T -> ->. reflexivity.
  - intros T -> Hn. simpl. unfold iloc_slice.
    destruct (Z.eqb_spec (n_samples self) 0) as [H0|H0]; [lia|].
    set (n := n_samples self) in *. set (L := len T).
    assert (HL : 0 <= L) by (unfold L, len; lia).
    unfold range3. destruct (Z.ltb_spec 0 n); [lia|].
    assert (Hcount : (slice_bound 0 n L - slice_bound (-1) n L - n - 1) / - n <= 0).
    { unfold slice_bound. change (0 <? 0) with false. change (-1 <? 0) with true.
      cbv iota. destruct (Z.ltb_spec n 0); [|lia].
      destruct (Z.leb_spec L 0), (Z.ltb_spec (-1 + L) 0); try lia.
      - replace (L - 1 - -1 - n - 1) with (- n - 1) by lia.
        rewrite Z.div_small by lia. lia.
      - assert ((0 - (-1 + L) - n - 1) / - n < 1)
          by (apply Z.div_lt_upper_bound; lia).
        lia. }
    destruct (Z.to_nat _) eqn:Hz; [reflexivity|lia].
Qed.

Lemma time_column_degenerate_windows_witness :
  time_column (mkANS (PyStr "Data.csv") (PyInt 0) (PyInt 10) DEFAULT_WEIGHTS 0
                     (Some [0; 0.5; 1]%float) None None None None None [])
  = Raise ValueError.
Proof.
  exact (proj1 (proj2 (time_column_degenerate_windows
                         (mkANS (PyStr "Data.csv") (PyInt 0) (PyInt 10)
                                DEFAULT_WEIGHTS 0
                                (Some [0; 0.5; 1]%float) None None None None None [])))
               [0; 0.5; 1]%float eq_refl eq_refl).
Defined.

(** How the three per-window columns line up for a recording of [L]
    samples, fewer than 2^53, and a positive window size below 2^1075:
    the heart rates and the GSR groups have the same number of windows,
    [ceil(L / n_samples)], and the TIME column has that number too unless
    the last window starts at the last sample ([L - 1] a multiple of
    [n_samples]), when it is one entry short. *)
Theorem window_counts (hp_process : series -> pyval -> result float)
    (self : OfflineAnalysisANS) (T E G : series) :
  time self = Some T -> ecg self = Some E -> gsr self = Some G ->
  len T = len E -> len G = len E ->
  0 < n_samples self < 2 ^ 1075 -> len E < 2 ^ 53 ->
  exists col out groups,
    time_column self = Return col /\
    heart_rate hp_process self = Return out /\
    gsr_groups self = Return groups /\
    len out = exact_ceil (len E) (n_samples self) /\
    len groups = len out /\
    len col = if (1 <=? len E) && ((len E - 1) mod n_samples self =? 0)
              then len out - 1 else len out.
Proof.
  intros HT HE HG HTE HGE Hn HL.
  assert (Hn0 : 0 < n_samples self) by lia.
  destruct (time_column_entries self T HT Hn0) as (col & Hcol & _ & Hcount).
  destruct (heart_rate_cells hp_process self E HE Hn HL)
    as (N & out & _ & HN & Hb & Hout & Hlen & _).
  pose proof (gsr_groups_partition self G HG Hn0) as Hgroups.
  rewrite HGE, <- HN in Hgroups.
  exists col, out. eexists. repeat (split; [eassumption|]).
  split; [congruence|]. split.
  - rewrite Hlen. unfold len, py_range. rewrite !length_map, length_seq.
    assert (0 <= N) by (unfold len in *; nia). lia.
  - rewrite Hlen. rewrite HTE in Hcount.
    set (n := n_samples self) in *. set (L := len E) in *.
    assert (HL0 : 0 <= L) by (unfold L, len; lia).
    assert (Hc : 0 <= len col) by (unfold len; lia).
    assert (HN0 : 0 <= N) by nia.
    assert (Hup : L - 1 <= len col * n).
    { destruct (Z_lt_le_dec (len col * n) (L - 1)) as [Hlt|]; [|lia].
      apply (Hcount (len col) Hc) in Hlt. lia. }
    assert (Hlow : len col = 0 \/ (len col - 1) * n < L - 1).
    { destruct (Z.eq_dec (len col) 0); [now left|right].
      apply (Hcount (len col - 1) ltac:(lia)). lia. }
    destruct (Z.leb_spec 1 L) as [H1|H1]; simpl.
    + pose proof (Z.div_mod (L - 1) n ltac:(lia)) as Hdm.
      pose proof (Z.mod_pos_bound (L - 1) n Hn0) as Hr.
      set (q := (L - 1) / n) in *.
      assert (Hq : 0 <= q) by (apply Z.div_pos; lia).
      destruct (Z.eqb_spec ((L - 1) mod n) 0) as [Hz|Hnz].
      * assert (len col = q) by (destruct Hlow; nia).
        assert (N = q + 1) by nia. lia.
      * assert (len col = q + 1) by (destruct Hlow; nia).
        assert (N = q + 1) by nia. lia.
    + assert (L = 0) by lia.
      assert (len col = 0) by (destruct Hlow; [assumption|nia]).
      assert (N = 0) by nia. lia.
Qed.

Lemma window_counts_witness :
  exists col out,
    time_column a_short_recording = Return col /\
    heart_rate (fun _ _ => Return 72%float) a_short_recording = Return out /\
    len col = len out - 1.
Proof.
  destruct (window_counts (fun _ _ => Return 72%float) a_short_recording
              [0; 0.5; 1]%float SHORT_ECG [5; 6; 7]%float
              eq_refl eq_refl eq_refl eq_refl eq_refl)
    as (col & out & groups & Hcol & Hout & _ & _ & _ & Hlen).
  - vm_compute. split; reflexivity.
  - vm_compute. reflexivity.
  - exists col, out. repeat split; assumption.
Defined.

(** ** More on normalisation *)

Lemma normalizing_values_app (cs1 cs2 : list string) (self : OfflineAnalysisANS) :
  normalizing_values (cs1 ++ cs2) self
  = match normalizing_values cs1 self with
    | (Return _, self1) => normalizing_values cs2 self1
    | (Raise e, self1) => (Raise e, self1)
    end.
Proof.
  unfold normalizing_values. revert self.
  induction cs1 as [|c cs1 IH]; intros self; [reflexivity|].
  simpl. unfold mbind at 1 2.
  destruct (normalize_column c self) as [[u|e] self1]; [apply IH|reflexivity].
Qed.

(** A listed column that the table lacks stops [normalizing_values] with
    [KeyError] at that column: the columns listed before it stay
    normalised, those after it are not reached.  Without a processed
    table the method raises [AttributeError] and changes nothing. *)
Theorem normalizing_values_missing_column (self : OfflineAnalysisANS) (df : frame)
    (before after : list string) (column : string) :
  (processed_data self = Some df ->
   NoDup before ->
   (forall c, In c before -> exists col, frame_get df c = Return col) ->
   frame_get df column = Raise KeyError ->
   fst (normalizing_values before self) = Return tt /\
   normalizing_values (before ++ column :: after) self
   = (Raise KeyError, snd (normalizing_values before self))) /\
  (processed_data self = None ->
   normalizing_values (column :: after) self = (Raise AttributeError, self)).
Proof.
  split.
  - intros Hdf Hnd Hcols Hmiss.
    destruct (normalizing_values_spec before self df Hnd Hdf Hcols)
      as (df' & Hret & Hproc & _ & _ & Hout).
    split; [exact Hret|].
    rewrite normalizing_values_app.
    destruct (normalizing_values before self) as [r self1].
    simpl in Hret, Hproc |- *. subst r.
    assert (Hnotin : ~ In column before).
    { intros Hin. destruct (Hcols column Hin) as [col Hcol]. congruence. }
    unfold normalizing_values. simpl. unfold mbind at 1.
    unfold normalize_column, mbind at 1. unfold get_column at 1.
    rewrite Hproc. simpl. rewrite (Hout column Hnotin), Hmiss. reflexivity.
  - intros Hnone. unfold normalizing_values. simpl. unfold mbind at 1.
    unfold normalize_column, mbind at 1. unfold get_column at 1.
    rewrite Hnone. reflexivity.
Qed.

Lemma normalizing_values_missing_column_witness :
  normalizing_values ["ECG"; "PPG"; "GSR"]%string a_processed_object
  = (Raise KeyError, snd (normalizing_values ["ECG"]%string a_processed_object)).
Proof.
  refine (proj2 (proj1 (normalizing_values_missing_column a_processed_object
                          a_processed_table ["ECG"]%string ["GSR"]%string "PPG")
                       eq_refl _ _ eq_refl)).
  - repeat constructor. intros [].
  - intros c [<-|[]]. eexists. reflexivity.
Defined.

(** ** Floats: NaN and zero *)

Lemma float_is_nan (x : float) : Prim2SF x = S754_nan -> x = nan.
Proof. intros H. apply Prim2SF_inj. rewrite H. reflexivity. Qed.

Lemma nan_mul_l (c : float) : (nan * c)%float = nan.
Proof. apply float_is_nan. rewrite mul_spec. reflexivity. Qed.

Lemma nan_add_l (c : float) : (nan + c)%float = nan.
Proof. apply float_is_nan. rewrite add_spec. reflexivity. Qed.

Lemma nan_add_r (c : float) : (c + nan)%float = nan.
Proof.
  apply float_is_nan. rewrite add_spec.
  change (Prim2SF nan) with S754_nan.
  unfold SF64add, SFadd. destruct (Prim2SF c); reflexivity.
Qed.

(** A cell that is not missing is a zero or a finite number. *)
Lemma not_na_shape (x : float) :
  isna x = false ->
  (exists s, Prim2SF x = S754_zero s) \/
  (exists s m e, Prim2SF x = S754_finite s m e).
Proof.
  unfold isna, is_nan, is_infinity. rewrite !eqb_spec, abs_spec.
  change (Prim2SF infinity) with (S754_infinity false).
  destruct (Prim2SF x) as [s|s| |s m e]; simpl; try discriminate; eauto.
  destruct s; discriminate.
Qed.

Lemma zero_eqb (x : float) (s : bool) :
  Prim2SF x = S754_zero s -> (x =? 0)%float = true.
Proof.
  intros H. rewrite eqb_spec, H.
  change (Prim2SF 0) with (S754_zero false). reflexivity.
Qed.

(** A number minus itself is a zero. *)
Lemma sub_self_zero (x : float) :
  isna x = false -> exists s, Prim2SF (x - x)%float = S754_zero s.
Proof.
  intros H. rewrite sub_spec.
  destruct (not_na_shape x H) as [[s ->]|(s & m & e & ->)].
  - destruct s; simpl; eauto.
  - unfold SF64sub, SFsub. rewrite Z.sub_diag. simpl. eauto.
Qed.

(** A zero over a number that is neither missing nor zero is a zero. *)
Lemma zero_div (z m : float) (s : bool) :
  Prim2SF z = S754_zero s -> isna m = false -> (m =? 0)%float = false ->
  (z / m =? 0)%float = true.
Proof.
  intros Hz Hm Hm0.
  destruct (not_na_shape m Hm) as [[sm Hsm]|(sm & mm & em & Hsm)].
  - rewrite (zero_eqb m sm Hsm) in Hm0. discriminate.
  - apply (zero_eqb _ (xorb s sm)). rewrite div_spec, Hz, Hsm. reflexivity.
Qed.

(** The maximum and minimum of a series with a cell that is not missing
    are cells of the series, and are not missing. *)
Lemma fold_float_max_in (xs : list float) (x : float) :
  In (fold_left float_max xs x) (x :: xs).
Proof.
  revert x. induction xs as [|y xs IH]; intros x; [now left|].
  simpl fold_left. destruct (IH (float_max x y)) as [H|H].
  - rewrite <- H. unfold float_max. destruct (x <? y)%float; simpl; auto.
  - right. now right.
Qed.

Lemma series_max_not_na (s : series) (x : float) :
  In x s -> isna x = false -> In (series_max s) s /\ isna (series_max s) = false.
Proof.
  intros Hin Hx. unfold series_max.
  assert (Hf : In x (filter (fun y => negb (isna y)) s))
    by (apply filter_In; split; [assumption|now rewrite Hx]).
  destruct (filter (fun y => negb (isna y)) s) as [|y ys] eqn:Hfs; [contradiction|].
  pose proof (fold_float_max_in ys y) as Hm. rewrite <- Hfs in Hm.
  apply filter_In in Hm. destruct Hm as [Hm1 Hm2].
  split; [exact Hm1|]. now apply negb_true_iff.
Qed.

Lemma zero_not_na (x : float) (s : bool) : Prim2SF x = S754_zero s -> isna x = false.
Proof.
  intros H. unfold isna, is_nan, is_infinity. rewrite !eqb_spec, abs_spec, H.
  change (Prim2SF infinity) with (S754_infinity false).
  destruct s; reflexivity.
Qed.

(** In a column that is not constant, [normalizing_values] sends a cell
    that holds the column's minimum to zero: for a minimum that is a
    number and a nonzero maximum of the differences to it, the normalised
    cell compares equal to 0. *)
Theorem normalizing_values_minimum_to_zero (self : OfflineAnalysisANS) (df : frame)
    (column : string) (col : series) (k : nat) :
  processed_data self = Some df ->
  (forall c, In c COLUMNS_LIST -> exists col, frame_get df c = Return col) ->
  In column COLUMNS_LIST ->
  frame_get df column = Return col ->
  nth_error col k = Some (series_min col) ->
  isna (series_min col) = false ->
  (series_max (series_sub col (series_min col)) =? 0)%float = false ->
  exists df' col' z,
    normal_data (snd (normalizing_values COLUMNS_LIST self)) = Some df' /\
    frame_get df' column = Return col' /\
    nth_error col' k = Some z /\ (z =? 0)%float = true.
Proof.
  intros Hdf Hcols Hin Hcol Hk Hmin Hmax.
  destruct (normalizing_values_spec COLUMNS_LIST self df COLUMNS_LIST_NoDup Hdf Hcols)
    as (df' & _ & _ & Hnorm & Hscaled & _).
  exists df', (min_max_scaled col). eexists.
  split; [exact Hnorm|]. split; [now apply Hscaled|].
  split; [exact (nth_error_min_max_scaled col k (series_min col) Hk)|].
  destruct (sub_self_zero _ Hmin) as [s Hs].
  apply (zero_div _ _ s Hs); [|exact Hmax].
  eapply series_max_not_na.
  - unfold series_sub. apply in_map_iff.
    exists (series_min col). split; [reflexivity|].
    eapply nth_error_In; eauto.
  - eapply zero_not_na; eauto.
Qed.

Lemma normalizing_values_minimum_to_zero_witness :
  exists df',
    normal_data (snd (normalizing_values COLUMNS_LIST a_processed_object)) = Some df'.
Proof.
  destruct (normalizing_values_minimum_to_zero a_processed_object a_processed_table
              "GSR" [1; 2; 3]%float 0) as (df' & _ & _ & H & _).
  - reflexivity.
  - intros c Hc. simpl in Hc.
    destruct Hc as [<-|[<-|[<-|[]]]]; eexists; reflexivity.
  - simpl. auto.
  - reflexivity.
  - vm_compute. reflexivity.
  - vm_compute. reflexivity.
  - vm_compute. reflexivity.
  - exists df'. exact H.
Defined.

(** ** More on scoring *)

(** What [score_adding] leaves behind when the table has the three
    columns and the three weights are numbers. *)
Lemma score_adding_run (self : OfflineAnalysisANS) (table : frame)
    (ecg gsr resp : series) (v_ecg v_gsr v_resp : pyval) (w_ecg w_gsr w_resp : float) :
  normal_data self = Some table ->
  frame_get table "ECG" = Return ecg ->
  frame_get table "GSR" = Return gsr ->
  frame_get table "RESP" = Return resp ->
  weight (weights self) "ECG" = Return v_ecg ->
  weight (weights self) "GSR" = Return v_gsr ->
  weight (weights self) "RESP" = Return v_resp ->
  scalar_operand v_ecg = Return w_ecg ->
  scalar_operand v_gsr = Return w_gsr ->
  scalar_operand v_resp = Return w_resp ->
  let scored :=
    frame_set table "Stress_Score"
      (series_plus
         (series_plus (map (fun v => (v * w_ecg)%float) ecg)
                      (map (fun v => (v * w_gsr)%float) gsr))
         (map (fun v => (v * w_resp)%float) resp)) in
  score_adding self
  = (Return tt, set_scored_data (set_normal_data self scored) scored).
Proof.
  intros Htable Hecg Hgsr Hresp Hve Hvg Hvr Hwe Hwg Hwr.
  unfold score_adding. rewrite Htable. simpl.
  rewrite Hecg, Hve. simpl. unfold series_mul at 1. rewrite Hwe. simpl.
  rewrite Hgsr, Hvg. simpl. unfold series_mul at 1. rewrite Hwg. simpl.
  rewrite Hresp, Hvr. simpl. unfold series_mul at 1. rewrite Hwr. simpl.
  reflexivity.
Qed.

Lemma nth_error_score (ecg gsr resp : series) (w_ecg w_gsr w_resp : float)
    (k : nat) (e g r : float) :
  nth_error ecg k = Some e -> nth_error gsr k = Some g -> nth_error resp k = Some r ->
  nth_error
    (series_plus
       (series_plus (map (fun v => (v * w_ecg)%float) ecg)
                    (map (fun v => (v * w_gsr)%float) gsr))
       (map (fun v => (v * w_resp)%float) resp)) k
  = Some (e * w_ecg + g * w_gsr + r * w_resp)%float.
Proof.
  intros He Hg Hr.
  apply nth_error_series_plus; [apply nth_error_series_plus|];
    rewrite nth_error_map; [rewrite He|rewrite Hg|rewrite Hr]; reflexivity.
Qed.

(** A window with an undefined (NaN) normalised value in any of the three
    columns gets an undefined Stress_Score, whatever the weights, a weight
    of 0 included. *)
Theorem score_adding_undefined_window (self : OfflineAnalysisANS) (table : frame)
    (ecg gsr resp : series) (v_ecg v_gsr v_resp : pyval) (w_ecg w_gsr w_resp : float)
    (k : nat) (e g r : float) :
  normal_data self = Some table ->
  frame_get table "ECG" = Return ecg ->
  frame_get table "GSR" = Return gsr ->
  frame_get table "RESP" = Return resp ->
  weight (weights self) "ECG" = Return v_ecg ->
  weight (weights self) "GSR" = Return v_gsr ->
  weight (weights self) "RESP" = Return v_resp ->
  scalar_operand v_ecg = Return w_ecg ->
  scalar_operand v_gsr = Return w_gsr ->
  scalar_operand v_resp = Return w_resp ->
  nth_error ecg k = Some e -> nth_error gsr k = Some g -> nth_error resp k = Some r ->
  e = nan \/ g = nan \/ r = nan ->
  exists scored score,
    scored_data (snd (score_adding self)) = Some scored /\
    frame_get scored "Stress_Score" = Return score /\
    nth_error score k = Some nan.
Proof.
  intros Htable Hecg Hgsr Hresp Hve Hvg Hvr Hwe Hwg Hwr He Hg Hr Hnan.
  rewrite (score_adding_run self table ecg gsr resp v_ecg v_gsr v_resp
             w_ecg w_gsr w_resp) by assumption.
  eexists. eexists. split; [reflexivity|].
  split; [apply frame_get_set_same|].
  rewrite (nth_error_score _ _ _ _ _ _ k e g r He Hg Hr). f_equal.
  destruct Hnan as [->|[->| ->]].
  - now rewrite nan_mul_l, !nan_add_l.
  - now rewrite nan_mul_l, nan_add_r, nan_add_l.
  - now rewrite nan_mul_l, nan_add_r.
Qed.

Lemma score_adding_undefined_window_witness :
  exists scored,
    scored_data
      (snd (score_adding
              (mkANS (PyStr "Data.csv") (PyInt 512) (PyInt 10) HALF_HALF_WEIGHTS 5120
                     None None None None
                     (Some [("ECG", [nan]); ("RESP", [0.4]); ("GSR", [0.8])]%string%float)
                     None [])))
    = Some scored.
Proof.
  destruct (score_adding_undefined_window
              (mkANS (PyStr "Data.csv") (PyInt 512) (PyInt 10) HALF_HALF_WEIGHTS 5120
                     None None None None
                     (Some [("ECG", [nan]); ("RESP", [0.4]); ("GSR", [0.8])]%string%float)
                     None [])
              [("ECG", [nan]); ("RESP", [0.4]); ("GSR", [0.8])]%string%float
              [nan] [0.8]%float [0.4]%float
              (PyFloat 0.5) (PyFloat 0.5) (PyFloat 0) 0.5 0.5 0
              0 nan 0.8 0.4
              eq_refl eq_refl eq_refl eq_refl eq_refl eq_refl eq_refl
              eq_refl eq_refl eq_refl eq_refl eq_refl eq_refl
              (or_introl eq_refl))
    as (scored & _ & H & _).
  exists scored. exact H.
Defined.

(** Scoring again changes nothing: run on the object a first
    [score_adding] left, [score_adding] returns and leaves the same
    object. *)
Theorem score_adding_twice (self : OfflineAnalysisANS) (table : frame)
    (ecg gsr resp : series) (v_ecg v_gsr v_resp : pyval) (w_ecg w_gsr w_resp : float) :
  normal_data self = Some table ->
  frame_get table "ECG" = Return ecg ->
  frame_get table "GSR" = Return gsr ->
  frame_get table "RESP" = Return resp ->
  weight (weights self) "ECG" = Return v_ecg ->
  weight (weights self) "GSR" = Return v_gsr ->
  weight (weights self) "RESP" = Return v_resp ->
  scalar_operand v_ecg = Return w_ecg ->
  scalar_operand v_gsr = Return w_gsr ->
  scalar_operand v_resp = Return w_resp ->
  fst (score_adding self) = Return tt /\
  score_adding (snd (score_adding self)) = (Return tt, snd (score_adding self)).
Proof.
  intros Htable Hecg Hgsr Hresp Hve Hvg Hvr Hwe Hwg Hwr.
  rewrite (score_adding_run self table ecg gsr resp v_ecg v_gsr v_resp
             w_ecg w_gsr w_resp) by assumption.
  split; [reflexivity|]. cbn [snd].
  set (scored := frame_set table "Stress_Score" _).
  rewrite (score_adding_run (set_scored_data (set_normal_data self scored) scored)
             scored ecg gsr resp v_ecg v_gsr v_resp w_ecg w_gsr w_resp);
    try assumption; try reflexivity;
    try (unfold scored; rewrite frame_get_set_other by discriminate; assumption).
  unfold scored. rewrite frame_set_set. reflexivity.
Qed.

Lemma score_adding_twice_witness :
  score_adding (snd (score_adding a_normal_object))
  = (Return tt, snd (score_adding a_normal_object)).
Proof.
  exact (proj2 (score_adding_twice a_normal_object a_normal_table
                  [0.2]%float [0.8]%float [0.4]%float
                  (PyFloat 0.5) (PyFloat 0.5) (PyFloat 0) 0.5 0.5 0
                  eq_refl eq_refl eq_refl eq_refl eq_refl eq_refl eq_refl
                  eq_refl eq_refl eq_refl)).
Defined.

(** ** Normalising, then scoring *)

Lemma normalizing_values_keeps_weights (columns_list : list string) :
  forall (self : OfflineAnalysisANS) (df : frame),
    NoDup columns_list ->
    processed_data self = Some df ->
    (forall c, In c columns_list -> exists col, frame_get df c = Return col) ->
    weights (snd (normalizing_values columns_list self)) = weights self.
Proof.
  induction columns_list as [|column cs IH]; intros self df Hnd Hdf Hcols;
    [reflexivity|].
  destruct (Hcols column (or_introl eq_refl)) as [col Hcol].
  inversion Hnd as [|? ? Hnotin Hnd']; subst.
  set (df1 := frame_set df column (min_max_scaled col)).
  set (self1 := set_normal_data (set_processed_data self df1) df1).
  assert (Hstep : normalizing_values (column :: cs) self
                  = normalizing_values cs self1).
  { unfold normalizing_values. simpl. unfold mbind at 1.
    rewrite (normalize_column_spec self df column col Hdf Hcol). reflexivity. }
  rewrite Hstep, (IH self1 df1 Hnd' eq_refl); [reflexivity|].
  intros c Hc. unfold df1.
  rewrite frame_get_set_other by (intros ->; contradiction).
  apply Hcols. now right.
Qed.

(** [normalizing_values()] followed by [score_adding()], as
    [compute_data_for_simulation] chains them: on a processed table with
    the three columns and weights that are numbers both return; the score
    of window [k] is the weighted sum of the three normalised values
    [(v - min) / m]; the scored table is the normalised table plus the
    Stress_Score column, held as [normal_data] and [scored_data]; and the
    processed table itself gets no score column. *)
Theorem normalize_then_score (self : OfflineAnalysisANS) (df : frame)
    (ecg gsr resp : series) (v_ecg v_gsr v_resp : pyval) (w_ecg w_gsr w_resp : float) :
  processed_data self = Some df ->
  frame_get df "ECG" = Return ecg ->
  frame_get df "GSR" = Return gsr ->
  frame_get df "RESP" = Return resp ->
  weight (weights self) "ECG" = Return v_ecg ->
  weight (weights self) "GSR" = Return v_gsr ->
  weight (weights self) "RESP" = Return v_resp ->
  scalar_operand v_ecg = Return w_ecg ->
  scalar_operand v_gsr = Return w_gsr ->
  scalar_operand v_resp = Return w_resp ->
  let normalised := snd (normalizing_values COLUMNS_LIST self) in
  let final := snd (score_adding normalised) in
  let scale col v :=
    ((v - series_min col) / series_max (series_sub col (series_min col)))%float in
  fst (normalizing_values COLUMNS_LIST self) = Return tt /\
  fst (score_adding normalised) = Return tt /\
  exists df' scored score,
    processed_data final = Some df' /\
    normal_data final = Some scored /\
    scored_data final = Some scored /\
    frame_get df' "Stress_Score" = frame_get df "Stress_Score" /\
    (forall c, c <> "Stress_Score"%string -> frame_get scored c = frame_get df' c) /\
    frame_get scored "Stress_Score" = Return score /\
    forall k e g r,
      nth_error ecg k = Some e -> nth_error gsr k = Some g ->
      nth_error resp k = Some r ->
      nth_error score k
      = Some (scale ecg e * w_ecg + scale gsr g * w_gsr + scale resp r * w_resp)%float.
Proof.
  intros Hdf Hecg Hgsr Hresp Hve Hvg Hvr Hwe Hwg Hwr normalised final scale.
  assert (Hcols : forall c, In c COLUMNS_LIST -> exists col, frame_get df c = Return col).
  { intros c Hc. simpl in Hc. destruct Hc as [<-|[<-|[<-|[]]]]; eauto. }
  destruct (normalizing_values_spec COLUMNS_LIST self df COLUMNS_LIST_NoDup Hdf Hcols)
    as (df' & Hret & Hproc & Hnorm & Hscaled & Hother).
  fold normalised in Hret, Hproc, Hnorm. simpl in Hnorm.
  assert (Hw : weights normalised = weights self)
    by (exact (normalizing_values_keeps_weights COLUMNS_LIST self df
                 COLUMNS_LIST_NoDup Hdf Hcols)).
  refine (conj Hret _).
  assert (Hrun := score_adding_run normalised df'
                    (min_max_scaled ecg) (min_max_scaled gsr) (min_max_scaled resp)
                    v_ecg v_gsr v_resp w_ecg w_gsr w_resp Hnorm).
  rewrite Hw in Hrun.
  specialize (Hrun (Hscaled "ECG"%string ecg ltac:(simpl; auto) Hecg)
                   (Hscaled "GSR"%string gsr ltac:(simpl; auto) Hgsr)
                   (Hscaled "RESP"%string resp ltac:(simpl; auto) Hresp)
                   Hve Hvg Hvr Hwe Hwg Hwr).
  simpl in Hrun. unfold final. rewrite Hrun. split; [reflexivity|].
  eexists df', _, _. cbn [snd].
  split; [exact Hproc|]. split; [reflexivity|]. split; [reflexivity|].
  split.
  { apply Hother. simpl. intros [H|[H|[H|[]]]]; discriminate. }
  split.
  { intros c Hc. apply frame_get_set_other. congruence. }
  split; [apply frame_get_set_same|].
  intros k e g r He Hg Hr.
  apply nth_error_score; apply nth_error_min_max_scaled; assumption.
Qed.

Lemma normalize_then_score_witness :
  fst (score_adding (snd (normalizing_values COLUMNS_LIST a_processed_object)))
  = Return tt.
Proof.
  exact (proj1 (proj2 (normalize_then_score a_processed_object a_processed_table
                         ZERO_MAX_COLUMN [1; 2; 3]%float [12; 15; 18]%float
                         (PyFloat (1 / 3)) (PyFloat (1 / 3)) (PyFloat (1 / 3))
                         (1 / 3) (1 / 3) (1 / 3)
                         eq_refl eq_refl eq_refl eq_refl eq_refl eq_refl eq_refl
                         eq_refl eq_refl eq_refl))).
Defined.

(** ** The replay *)

Lemma iloc_position_bound (rows i : Z) (k : nat) :
  iloc_position rows i = Some k -> (Z.of_nat k < rows).
Proof.
  unfold iloc_position.
  destruct (Z.leb_spec (- rows) i), (Z.ltb_spec i rows); simpl; try discriminate.
  intros Hk. inversion Hk. destruct (Z.ltb_spec i 0); lia.
Qed.

Lemma frame_rows_set (df : frame) (column : string) (s : series) :
  df <> [] -> len s = frame_rows df -> frame_rows (frame_set df column s) = frame_rows df.
Proof.
  destruct df as [|[c s'] df]; [congruence|]. intros _ Hlen. simpl.
  destruct (String.eqb c column); simpl; auto.
Qed.

Lemma series_plus_length (a b : series) :
  List.length a = List.length b -> List.length (series_plus a b) = List.length a.
Proof.
  intros H. unfold series_plus. rewrite length_map, length_combine. lia.
Qed.

(** The bars of a replayed row: after [score_adding], for a row index
    within the table (a negative one counting from the end) the four
    values handed to the bar chart are the three normalised values of
    that row and their weighted sum; any other index is an
    [IndexError]. *)
Theorem fear_values_after_scoring (base : OfflineAnalysisANS) (table : frame)
    (ecg gsr resp : series) (v_ecg v_gsr v_resp : pyval) (w_ecg w_gsr w_resp : float)
    (self : OnlineAnalysisANS) (i : Z) :
  normal_data base = Some table ->
  frame_get table "ECG" = Return ecg ->
  frame_get table "GSR" = Return gsr ->
  frame_get table "RESP" = Return resp ->
  len ecg = frame_rows table -> len gsr = frame_rows table ->
  len resp = frame_rows table ->
  weight (weights base) "ECG" = Return v_ecg ->
  weight (weights base) "GSR" = Return v_gsr ->
  weight (weights base) "RESP" = Return v_resp ->
  scalar_operand v_ecg = Return w_ecg ->
  scalar_operand v_gsr = Return w_gsr ->
  scalar_operand v_resp = Return w_resp ->
  offline self = snd (score_adding base) ->
  fear_values self i =
  match iloc_position (frame_rows table) i with
  | Some k =>
      let e := nth k ecg nan in
      let g := nth k gsr nan in
      let r := nth k resp nan in
      Ok [e; g; r; (e * w_ecg + g * w_gsr + r * w_resp)%float]
  | None => ErrIndexError
  end.
Proof.
  intros Htable Hecg Hgsr Hresp Hle Hlg Hlr Hve Hvg Hvr Hwe Hwg Hwr Hoff.
  unfold fear_values. rewrite Hoff.
  rewrite (score_adding_run base table ecg gsr resp v_ecg v_gsr v_resp
             w_ecg w_gsr w_resp) by assumption.
  cbn [snd scored_data set_scored_data attribute].
  set (score := series_plus _ _).
  assert (Hne : table <> []) by (intros ->; discriminate).
  assert (Hls : len score = frame_rows table).
  { unfold score, len in *.
    assert (Hab : List.length
                    (series_plus (map (fun v => (v * w_ecg)%float) ecg)
                                 (map (fun v => (v * w_gsr)%float) gsr))
                  = List.length ecg)
      by (rewrite series_plus_length; rewrite !length_map; lia).
    rewrite series_plus_length; rewrite Hab, ?length_map; lia. }
  rewrite frame_rows_set by assumption.
  destruct (iloc_position (frame_rows table) i) as [k|] eqn:Hk; [|reflexivity].
  apply iloc_position_bound in Hk.
  rewrite !frame_get_set_other by discriminate.
  rewrite Hecg, Hgsr, Hresp, frame_get_set_same. simpl.
  do 5 f_equal.
  apply nth_error_nth.
  unfold score. apply nth_error_score; apply nth_error_nth'; unfold len in *; lia.
Qed.

Lemma fear_values_after_scoring_witness :
  fear_values (mkOnline (snd (score_adding a_normal_object)) 20
                        (NdArray []) (NdArray [])) 0
  = Ok [0.2; 0.8; 0.4; 0.5]%float.
Proof.
  refine (eq_trans
            (fear_values_after_scoring a_normal_object a_normal_table
               [0.2]%float [0.8]%float [0.4]%float
               (PyFloat 0.5) (PyFloat 0.5) (PyFloat 0) 0.5 0.5 0
               (mkOnline (snd (score_adding a_normal_object)) 20
                         (NdArray []) (NdArray [])) 0
               eq_refl eq_refl eq_refl eq_refl eq_refl eq_refl eq_refl
               eq_refl eq_refl eq_refl eq_refl eq_refl eq_refl eq_refl) _).
  vm_compute. reflexivity.
Defined.

Lemma pop_while_longer_spec (width : Z) (y : list float) :
  0 <= width ->
  forall x, List.length x = List.length y ->
    pop_while_longer width y x = (true, (last_n width y, last_n width x)).
Proof.
  intros Hw. unfold last_n.
  induction y as [|y0 y IH]; intros x Hlen.
  - destruct x; [|discriminate]. simpl.
    destruct (Z.ltb_spec width 0); [lia|]. reflexivity.
  - destruct x as [|x0 x]; [discriminate|]. simpl in Hlen.
    cbn [pop_while_longer].
    destruct (Z.ltb_spec width (len (y0 :: y))) as [Hlong|Hshort].
    + rewrite IH by lia. unfold len in Hlong. simpl List.length in *.
      replace (S (List.length y) - Z.to_nat width)%nat
        with (S (List.length y - Z.to_nat width)) by lia.
      replace (S (List.length x) - Z.to_nat width)%nat
        with (S (List.length x - Z.to_nat width)) by lia.
      reflexivity.
    + unfold len in Hshort. simpl List.length in *.
      replace (S (List.length y) - Z.to_nat width)%nat with 0%nat by lia.
      replace (S (List.length x) - Z.to_nat width)%nat with 0%nat by lia.
      reflexivity.
Qed.

Lemma last_n_snoc {A : Type} (n : Z) (l : list A) (v : A) :
  last_n n (last_n n l ++ [v]) = last_n n (l ++ [v]).
Proof.
  unfold last_n.
  rewrite !length_app, length_skipn. simpl List.length.
  destruct (Nat.le_gt_cases (List.length l) (Z.to_nat n)) as [Hle|Hgt].
  - replace (List.length l - Z.to_nat n)%nat with 0%nat by lia. simpl skipn at 2.
    f_equal. lia.
  - rewrite (skipn_app (List.length l + 1 - Z.to_nat n)).
    rewrite (skipn_app (List.length l - (List.length l - Z.to_nat n) + 1 - Z.to_nat n)).
    rewrite skipn_skipn, length_skipn.
    f_equal; f_equal; lia.
Qed.

Lemma last_n_length {A : Type} (n : Z) (l : list A) :
  0 <= n -> len (last_n n l) = Z.min n (len l).
Proof.
  intros H. unfold last_n, len. rewrite length_skipn. lia.
Qed.

(** One update of the line graph: with a scored table, a row index
    within it, a non-negative width and two arrays of equal length, the
    update appends the score of row [i] and the index [i] and keeps the
    last [graph_width] points of each, as arrays again; so a graph that is
    full stays full and loses its oldest point. *)
Theorem update_data_simulation_graph_slides (self : OnlineAnalysisANS)
    (scored : frame) (score : series) (i : Z) (v : float) (xs ys : list float) :
  scored_data (offline self) = Some scored ->
  frame_get scored "Stress_Score" = Return score ->
  iloc score i = Ok v ->
  graph_x self = NdArray xs -> graph_y self = NdArray ys ->
  List.length xs = List.length ys ->
  0 <= graph_width self ->
  let self' := snd (update_data_simulation_graph i self) in
  fst (update_data_simulation_graph i self) = Ok tt /\
  graph_y self' = NdArray (last_n (graph_width self) (ys ++ [v])) /\
  graph_x self' = NdArray (last_n (graph_width self) (xs ++ [float_of_index i])) /\
  offline self' = offline self /\ graph_width self' = graph_width self /\
  len (last_n (graph_width self) (ys ++ [v]))
  = Z.min (graph_width self) (len ys + 1) /\
  len (last_n (graph_width self) (xs ++ [float_of_index i]))
  = len (last_n (graph_width self) (ys ++ [v])).
Proof.
  intros Hsd Hscore Hv Hx Hy Hlen Hw. unfold update_data_simulation_graph.
  rewrite Hx, Hy. cbn [tolist offline graph_width]. rewrite Hsd. simpl.
  rewrite Hscore, Hv.
  rewrite pop_while_longer_spec by (rewrite ?length_app; simpl; lia).
  simpl. repeat (split; [reflexivity|]).
  rewrite !last_n_length by assumption. unfold len.
  rewrite !length_app. simpl. lia.
Qed.

Lemma update_data_simulation_graph_slides_witness :
  graph_y (snd (update_data_simulation_graph 0
                  (mkOnline (snd (score_adding a_normal_object)) 2
                            (NdArray [5; 6]%float) (NdArray [0.1; 0.3]%float))))
  = NdArray [0.3; 0.5]%float.
Proof.
  refine (eq_trans
            (proj1 (proj2
               (update_data_simulation_graph_slides
                  (mkOnline (snd (score_adding a_normal_object)) 2
                            (NdArray [5; 6]%float) (NdArray [0.1; 0.3]%float))
                  (frame_set a_normal_table "Stress_Score" [0.5]%float)
                  [0.5]%float 0 0.5 [5; 6]%float [0.1; 0.3]%float
                  _ _ _ eq_refl eq_refl eq_refl _))) _).
  - vm_compute. reflexivity.
  - vm_compute. reflexivity.
  - vm_compute. reflexivity.
  - vm_compute. discriminate.
  - vm_compute. reflexivity.
Defined.

Lemma update_data_simulation_graph_run (self : OnlineAnalysisANS)
    (scored : frame) (score : series) (i : Z) (v : float) (xs ys : list float) :
  scored_data (offline self) = Some scored ->
  frame_get scored "Stress_Score" = Return score ->
  iloc score i = Ok v ->
  graph_x self = NdArray xs -> graph_y self = NdArray ys ->
  List.length xs = List.length ys ->
  0 <= graph_width self ->
  update_data_simulation_graph i self
  = (Ok tt,
     mkOnline (offline self) (graph_width self)
       (NdArray (last_n (graph_width self) (xs ++ [float_of_index i])))
       (NdArray (last_n (graph_width self) (ys ++ [v])))).
Proof.
  intros Hsd Hscore Hv Hx Hy Hlen Hw. unfold update_data_simulation_graph.
  rewrite Hx, Hy. cbn [tolist offline graph_width]. rewrite Hsd. simpl.
  rewrite Hscore, Hv.
  rewrite pop_while_longer_spec by (rewrite ?length_app; simpl; lia).
  reflexivity.
Qed.

Lemma graph_updates_app (l1 l2 : list Z) (self : OnlineAnalysisANS) :
  graph_updates (l1 ++ l2) self
  = match graph_updates l1 self with
    | (Ok _, self1) => graph_updates l2 self1
    | failed => failed
    end.
Proof.
  revert self. induction l1 as [|i l1 IH]; intros self; [reflexivity|].
  simpl. destruct (update_data_simulation_graph i self) as [[u|e|] self1];
    [apply IH|reflexivity|reflexivity].
Qed.

Lemma firstn_snoc_nth {A : Type} (l : list A) (m : nat) (d : A) :
  (m < List.length l)%nat -> firstn (S m) l = firstn m l ++ [nth m l d].
Proof.
  revert m. induction l as [|x l IH]; intros [|m] H; simpl in *; try lia.
  - reflexivity.
  - f_equal. apply IH. lia.
Qed.

Lemma iloc_in_range (s : series) (m : nat) :
  (m < List.length s)%nat -> iloc s (Z.of_nat m) = Ok (nth m s nan).
Proof.
  intros H. unfold iloc, iloc_position, len.
  destruct (Z.leb_spec (- Z.of_nat (List.length s)) (Z.of_nat m)); [|lia].
  destruct (Z.ltb_spec (Z.of_nat m) (Z.of_nat (List.length s))); [|lia].
  destruct (Z.ltb_spec (Z.of_nat m) 0); [lia|].
  simpl. rewrite Nat2Z.id. reflexivity.
Qed.

(** The whole replay of the line graph: started on a scored table with
    two arrays of equal length that fit the width, the loop of
    [gragh_simulation] runs through every row without raising, and the
    graph then shows the last [graph_width] points of the initial points
    followed by all the scores, against the last [graph_width] of the
    initial abscissas followed by the row indices. *)
Theorem gragh_simulation_shows_last_scores (self : OnlineAnalysisANS)
    (scored : frame) (score : series) (xs ys : list float) :
  scored_data (offline self) = Some scored ->
  frame_get scored "Stress_Score" = Return score ->
  frame_rows scored = len score ->
  graph_x self = NdArray xs -> graph_y self = NdArray ys ->
  List.length xs = List.length ys ->
  len ys <= graph_width self ->
  gragh_simulation_updates self
  = (Ok tt,
     mkOnline (offline self) (graph_width self)
       (NdArray (last_n (graph_width self)
                   (xs ++ map float_of_index (py_range (len score)))))
       (NdArray (last_n (graph_width self) (ys ++ score)))).
Proof.
  intros Hsd Hscore Hrows Hx Hy Hlen Hfit. unfold gragh_simulation_updates.
  rewrite Hsd. simpl. rewrite Hrows.
  assert (Hw : 0 <= graph_width self) by (unfold len in Hfit; lia).
  assert (Hpre : forall m, (m <= List.length score)%nat ->
            graph_updates (py_range (Z.of_nat m)) self
            = (Ok tt,
               mkOnline (offline self) (graph_width self)
                 (NdArray (last_n (graph_width self)
                             (xs ++ map float_of_index (py_range (Z.of_nat m)))))
                 (NdArray (last_n (graph_width self) (ys ++ firstn m score))))).
  { induction m as [|m IH]; intros Hm.
    - simpl. rewrite !app_nil_r. unfold last_n, len in *.
      replace (List.length xs - Z.to_nat (graph_width self))%nat
        with 0%nat by lia.
      replace (List.length ys - Z.to_nat (graph_width self))%nat
        with 0%nat by lia.
      destruct self; simpl in *. congruence.
    - rewrite py_range_S, graph_updates_app, IH by lia.
      cbn [graph_updates].
      rewrite (update_data_simulation_graph_run _ scored score (Z.of_nat m)
                 (nth m score nan)
                 (last_n (graph_width self)
                    (xs ++ map float_of_index (py_range (Z.of_nat m))))
                 (last_n (graph_width self) (ys ++ firstn m score)));
        cbn [offline graph_width graph_x graph_y];
        [ | assumption | assumption | | reflexivity | reflexivity | | assumption ].
      + rewrite !last_n_snoc, map_app.
        rewrite (firstn_snoc_nth score m nan) by lia.
        rewrite !app_assoc. reflexivity.
      + apply iloc_in_range. lia.
      + unfold last_n. rewrite !length_skipn, !length_app, length_map.
        unfold py_range. rewrite length_map, length_seq, length_firstn. lia. }
  unfold len. rewrite Hpre, firstn_all by lia. reflexivity.
Qed.

Lemma gragh_simulation_shows_last_scores_witness :
  gragh_simulation_updates
    (mkOnline (snd (score_adding a_normal_object)) 2
              (NdArray [5; 6]%float) (NdArray [0.1; 0.3]%float))
  = (Ok tt,
     mkOnline (snd (score_adding a_normal_object)) 2
              (NdArray [6; 0]%float) (NdArray [0.3; 0.5]%float)).
Proof.
  refine (eq_trans
            (gragh_simulation_shows_last_scores
               (mkOnline (snd (score_adding a_normal_object)) 2
                         (NdArray [5; 6]%float) (NdArray [0.1; 0.3]%float))
               (frame_set a_normal_table "Stress_Score" [0.5]%float)
               [0.5]%float [5; 6]%float [0.1; 0.3]%float
               _ _ _ eq_refl eq_refl eq_refl _) _).
  - vm_compute. reflexivity.
  - vm_compute. reflexivity.
  - vm_compute. reflexivity.
  - vm_compute. discriminate.
  - vm_compute. reflexivity.
Defined.

(** An update that fails stops the replay for good: with a row index
    outside the scored table the update raises [IndexError] after it has
    turned the two arrays into lists, so the object keeps lists (with the
    points it had), and every later update, whatever its index, raises
    [AttributeError] at [tolist()]. *)
Theorem update_data_simulation_graph_after_failure (self : OnlineAnalysisANS)
    (scored : frame) (score : series) (i : Z) (xs ys : list float) :
  scored_data (offline self) = Some scored ->
  frame_get scored "Stress_Score" = Return score ->
  iloc score i = ErrIndexError ->
  graph_x self = NdArray xs -> graph_y self = NdArray ys ->
  update_data_simulation_graph i self
  = (ErrIndexError,
     mkOnline (offline self) (graph_width self) (PyList xs) (PyList ys)) /\
  forall j,
    update_data_simulation_graph j (snd (update_data_simulation_graph i self))
    = (Err AttributeError, snd (update_data_simulation_graph i self)).
Proof.
  intros Hsd Hscore Hi Hx Hy.
  assert (Hrun : update_data_simulation_graph i self
                 = (ErrIndexError,
                    mkOnline (offline self) (graph_width self)
                             (PyList xs) (PyList ys))).
  { unfold update_data_simulation_graph.
    rewrite Hx, Hy. cbn [tolist]. rewrite Hsd. cbn [attribute].
    rewrite Hscore, Hi. reflexivity. }
  split; [exact Hrun|].
  intros j. rewrite Hrun. reflexivity.
Qed.

Lemma update_data_simulation_graph_after_failure_witness :
  update_data_simulation_graph 5
    (mkOnline (snd (score_adding a_normal_object)) 2
              (NdArray [5; 6]%float) (NdArray [0.1; 0.3]%float))
  = (ErrIndexError,
     mkOnline (snd (score_adding a_normal_object)) 2
              (PyList [5; 6]%float) (PyList [0.1; 0.3]%float)).
Proof.
  refine (proj1 (update_data_simulation_graph_after_failure
                   (mkOnline (snd (score_adding a_normal_object)) 2
                             (NdArray [5; 6]%float) (NdArray [0.1; 0.3]%float))
                   (frame_set a_normal_table "Stress_Score" [0.5]%float)
                   [0.5]%float 5 [5; 6]%float [0.1; 0.3]%float
                   _ _ _ eq_refl eq_refl)).
  - vm_compute. reflexivity.
  - vm_compute. reflexivity.
  - vm_compute. reflexivity.
Defined.

(** ** The prototype's scoring against the pipeline's *)

(** [Indexing.index_adding] with the tuple [(w_ECG, w_GSR, w_RESP)] puts
    under Fear_Index the very column that [score_adding] puts under
    Stress_Score for a dict with these weights, on the same table; every
    tuple of fewer than three weights, all of them numbers, is an
    [IndexError]. *)
Theorem index_adding_agrees_with_score_adding (self : OfflineAnalysisANS)
    (table : frame) (ecg gsr resp : series) (v_ecg v_gsr v_resp : pyval)
    (w_ecg w_gsr w_resp : float) :
  normal_data self = Some table ->
  frame_get table "ECG" = Return ecg ->
  frame_get table "GSR" = Return gsr ->
  frame_get table "RESP" = Return resp ->
  weight (weights self) "ECG" = Return v_ecg ->
  weight (weights self) "GSR" = Return v_gsr ->
  weight (weights self) "RESP" = Return v_resp ->
  scalar_operand v_ecg = Return w_ecg ->
  scalar_operand v_gsr = Return w_gsr ->
  scalar_operand v_resp = Return w_resp ->
  (exists scored score,
     scored_data (snd (score_adding self)) = Some scored /\
     frame_get scored "Stress_Score" = Return score /\
     index_adding table [v_ecg; v_gsr; v_resp]
     = Ok (frame_set table "Fear_Index" score)) /\
  forall wights,
    (List.length wights < 3)%nat ->
    (forall w, In w wights -> exists f, scalar_operand w = Return f) ->
    index_adding table wights = ErrIndexError.
Proof.
  intros Htable Hecg Hgsr Hresp Hve Hvg Hvr Hwe Hwg Hwr.
  rewrite (score_adding_run self table ecg gsr resp v_ecg v_gsr v_resp
             w_ecg w_gsr w_resp) by assumption.
  split.
  - unfold index_adding, series_mul. rewrite Hecg, Hgsr, Hresp. simpl.
    rewrite Hwe. simpl. rewrite Hwg. simpl. rewrite Hwr. simpl.
    eexists. eexists. split; [reflexivity|].
    split; [apply frame_get_set_same|reflexivity].
  - intros wights Hlen Hnum. unfold index_adding, series_mul.
    rewrite Hecg, Hgsr, Hresp.
    destruct wights as [|w0 [|w1 [|w2 rest]]]; simpl in Hlen; try lia.
    + reflexivity.
    + destruct (Hnum w0 (or_introl eq_refl)) as [f0 Hf0].
      simpl. rewrite Hf0. reflexivity.
    + destruct (Hnum w0 (or_introl eq_refl)) as [f0 Hf0].
      destruct (Hnum w1 (or_intror (or_introl eq_refl))) as [f1 Hf1].
      simpl. rewrite Hf0. simpl. rewrite Hf1. reflexivity.
Qed.

Lemma index_adding_agrees_with_score_adding_witness :
  index_adding a_normal_table [PyFloat 0.5] = ErrIndexError.
Proof.
  refine (proj2 (index_adding_agrees_with_score_adding a_normal_object
                   a_normal_table [0.2]%float [0.8]%float [0.4]%float
                   (PyFloat 0.5) (PyFloat 0.5) (PyFloat 0) 0.5 0.5 0
                   eq_refl eq_refl eq_refl eq_refl eq_refl eq_refl eq_refl
                   eq_refl eq_refl eq_refl) [PyFloat 0.5] _ _).
  - simpl. lia.
  - intros w [<-|[]]. eexists. reflexivity.
Defined.
